(** * SleeperChoppedList: the join-and-ranking logic of [sleeper_league_analyzer.py]

    A shallow embedding of the two parts of the analyzer that carry logic:

    - [SleeperLeagueAnalyzer.get_weekly_projections], the best-effort
      accessor, over an untyped JSON value and an explicit exception result:
      what it computes (module [Accessor]), and the whole method with the
      lines it prints, on a console that may refuse a line (module [Client],
      with the required accessors and the fetches of [main]);
    - the body of [main] between the fetches and the export: the user lookup,
      the per-roster loop that builds [teams_data], the filter and the sort
      (module [Ranker]).

    Numbers.  The provider sends JSON numbers; they are modelled as exact
    rationals ([Q]).  Rounding of binary floating point is not modelled.
    Equality of point values is therefore stated with [==] where the code
    adds numbers and with [=] where it only passes a value through.

    Dictionaries whose iteration order the modelled code never observes are
    [gmap]s; Python's [d.get(k, default)] is [default (d !! k)].

    The rules on what a sum of points is are proved a second time, in module
    [Join], with the arithmetic left to the numbers: any addition, any
    comparison, any truth value.  They hold there of Python's floats, which
    are an instance ([float_number]), as of the rationals ([Q_number]). *)

From Stdlib Require Import QArith.
From Stdlib Require Import Floats.
From stdpp Require Import gmap strings list sorting pretty.

Set Default Proof Using "Type".
#[local] Set Warnings "-register-all".
#[local] Set Warnings "-inexact-float".

(** ** Python primitives on numbers and lists *)

(** Truthiness of a number, [bool(x)]: [x != 0]. *)
Definition num_truthy (x : Q) : bool := negb (Qeq_bool x 0).

(** [x > y] on numbers. *)
Definition Qgtb (x y : Q) : bool := negb (Qle_bool x y).

(** [x < y] on numbers. *)
Definition Qltb (x y : Q) : bool := negb (Qle_bool y x).

(** [a or b]: [a] when it is truthy, else [b]. *)
Definition py_or (a b : Q) : Q := if num_truthy a then a else b.

(** The builtin [sum(l)]: a left fold of [+] from the integer [0]. *)
Definition py_sum (l : list Q) : Q := fold_left Qplus l 0%Q.

(** Truthiness of a list: it is not empty. *)
Definition list_truthy {A} (l : list A) : bool :=
  match l with [] => false | _ :: _ => true end.

(** Truthiness of a dict: [len(d) != 0]. *)
Definition dict_truthy {V} (d : gmap string V) : bool :=
  negb (Nat.eqb (size d) 0).

(** A starter slot is a player id or JSON [null]; [if player_id:] holds for
    a non-empty string. *)
Definition slot_truthy (slot : option string) : bool :=
  match slot with
  | Some s => negb (String.eqb s "")
  | None => false
  end.

(** [list.sort(key=...)]: Python specifies it as stable and as comparing keys
    with [<] only.  It is modelled by the insertion sort with the same two
    properties: an element moves right only past elements whose key is
    strictly smaller than its own. *)
Section Sort.
Context {A : Type} (key : A → Q).

Fixpoint insert_by_key (x : A) (l : list A) : list A :=
  match l with
  | [] => [x]
  | y :: l' =>
      if Qltb (key y) (key x) then y :: insert_by_key x l' else x :: y :: l'
  end.

Definition sort_by_key (l : list A) : list A := foldr insert_by_key [] l.

(** The order the sorted list is in. *)
Definition key_le (a b : A) : Prop := (key a <= key b)%Q.

(** The test that an element has the key [q]. *)
Definition has_key (q : Q) (a : A) : bool := Qeq_bool (key a) q.
End Sort.

(** ** JSON values and exceptions

    What [response.json()] returns.  A [JObj] is the parsed dict: its keys
    are distinct and a lookup takes the binding of the key. *)

Inductive json :=
| JNull
| JBool (b : bool)
| JNum (q : Q)
| JStr (s : string)
| JArr (items : list json)
| JObj (fields : list (string * json)).

Inductive exn :=
| RequestException
| JSONDecodeError
| TypeError
| AttributeError
| KeyError
| UnicodeEncodeError.

(** The outcome of evaluating Python code: a value or a raised exception. *)
Inductive result (A : Type) :=
| Ok (a : A)
| Raise (e : exn).
Arguments Ok {A} a.
Arguments Raise {A} e.

#[global] Instance result_ret : MRet result := λ A a, Ok a.
#[global] Instance result_bind : MBind result := λ A B f m,
  match m with
  | Ok a => f a
  | Raise e => Raise e
  end.

(** Unfolds one sequencing step of the exception monad. *)
Ltac run_bind := unfold mbind, result_bind; simpl.

Module Accessor.

(** What [requests.get(url, params=params)] and the later [response.json()]
    do: the request raises, or there is a response with a status code whose
    body decodes to a JSON value or does not ([None]). *)
Inductive http_outcome :=
| RequestFailed
| Response (status_code : Z) (body : option json).

(** [response.json()]. *)
Definition response_json (body : option json) : result json :=
  match body with
  | Some data => Ok data
  | None => Raise JSONDecodeError
  end.

(** [bool(v)]. *)
Definition truthy (v : json) : bool :=
  match v with
  | JNull => false
  | JBool b => b
  | JNum q => num_truthy q
  | JStr s => negb (String.eqb s "")
  | JArr items => list_truthy items
  | JObj fields => list_truthy fields
  end.

(** [len(v)]. *)
Definition py_len (v : json) : result nat :=
  match v with
  | JStr s => Ok (String.length s)
  | JArr items => Ok (length items)
  | JObj fields => Ok (length fields)
  | _ => Raise TypeError
  end.

(** The elements [for x in v] goes through: the items of a list, the keys of
    a dict, the characters of a string. *)
Definition py_iter (v : json) : result (list json) :=
  match v with
  | JStr s => Ok (map (λ c, JStr (String c EmptyString)) (String.list_ascii_of_string s))
  | JArr items => Ok items
  | JObj fields => Ok (map (λ kv, JStr kv.1) fields)
  | _ => Raise TypeError
  end.

(** [v[:50]]. *)
Definition py_slice50 (v : json) : result json :=
  match v with
  | JStr s => Ok (JStr (String.substring 0 50 s))
  | JArr items => Ok (JArr (take 50 items))
  | JObj _ => Raise KeyError (* a dict has no key [slice(None, 50)] *)
  | _ => Raise TypeError
  end.

(** The binding of [k] in a parsed object. *)
Fixpoint field (k : string) (fields : list (string * json)) : option json :=
  match fields with
  | [] => None
  | (k', v) :: fields' => if String.eqb k' k then Some v else field k fields'
  end.

(** [v.get(k, dflt)]: only a dict has the method. *)
Definition py_get (v : json) (k : string) (dflt : json) : result json :=
  match v with
  | JObj fields => Ok (default dflt (field k fields))
  | _ => Raise AttributeError
  end.

(** [v == k] for a string [k]. *)
Definition eq_str (v : json) (k : string) : bool :=
  match v with
  | JStr s => String.eqb s k
  | _ => false
  end.

(** [k in v] for a string [k]: a key of a dict, an item of a list, a
    substring of a string. *)
Definition py_in (k : string) (v : json) : result bool :=
  match v with
  | JStr s => Ok (bool_decide (is_Some (String.index 0 k s)))
  | JArr items => Ok (existsb (λ x, eq_str x k) items)
  | JObj fields => Ok (bool_decide (is_Some (field k fields)))
  | _ => Raise TypeError
  end.

(** [any(key in stats for key in keys)], left to right, stopping at the
    first hit. *)
Fixpoint any_key_in (keys : list string) (stats : json) : result bool :=
  match keys with
  | [] => Ok false
  | key :: keys' =>
      hit ← py_in key stats;
      if hit : bool then Ok true else any_key_in keys' stats
  end.

(** *** The dict [projections_dict]

    Keys in insertion order.  Python compares keys with [==]: strings by
    content, numbers by value, [True] and [False] as [1] and [0]. *)
Definition pydict := list (json * json).

Definition key_num (k : json) : option Q :=
  match k with
  | JBool b => Some (if b then 1%Q else 0%Q)
  | JNum q => Some q
  | _ => None
  end.

Definition key_eqb (k1 k2 : json) : bool :=
  match k1, k2 with
  | JNull, JNull => true
  | JStr s1, JStr s2 => String.eqb s1 s2
  | _, _ =>
      match key_num k1, key_num k2 with
      | Some q1, Some q2 => Qeq_bool q1 q2
      | _, _ => false
      end
  end.

Definition hashable (k : json) : bool :=
  match k with
  | JArr _ | JObj _ => false
  | _ => true
  end.

(** [d.get(k)] for a hashable [k]. *)
Fixpoint dict_get (d : pydict) (k : json) : option json :=
  match d with
  | [] => None
  | (k', v') :: d' => if key_eqb k' k then Some v' else dict_get d' k
  end.

(** The store of [d[k] = v] for a hashable [k]: the value of an equal key is
    replaced in place, a new key goes last. *)
Fixpoint dict_store (d : pydict) (k v : json) : pydict :=
  match d with
  | [] => [(k, v)]
  | (k', v') :: d' =>
      if key_eqb k' k then (k', v) :: d' else (k', v') :: dict_store d' k v
  end.

(** [d[k] = v]. *)
Definition dict_set (d : pydict) (k v : json) : result pydict :=
  if hashable k then Ok (dict_store d k v) else Raise TypeError.

(** *** The body of the [try] *)

(** One turn of the first loop: [player_id = player_data.get('player_id')],
    then the store when [player_id] is truthy. *)
Definition rekey_step (projections_dict : pydict) (player_data : json)
  : result pydict :=
  player_id ← py_get player_data "player_id" JNull;
  if truthy player_id
  then dict_set projections_dict player_id player_data
  else Ok projections_dict.

Fixpoint rekey_loop (data : list json) (projections_dict : pydict)
  : result pydict :=
  match data with
  | [] => Ok projections_dict
  | player_data :: data' =>
      projections_dict' ← rekey_step projections_dict player_data;
      rekey_loop data' projections_dict'
  end.

Definition projection_keys : list string :=
  ["pts_ppr"; "fantasy_points_ppr"; "projected_points"; "pts_std"].

(** The second loop, over [data[:50]], with its [break] once three players
    are collected. *)
Fixpoint sample_loop (data : list json) (players_with_projections : list json)
  : result (list json) :=
  match data with
  | [] => Ok players_with_projections
  | player_data :: data' =>
      stats ← py_get player_data "stats" (JObj []);
      hit ← any_key_in projection_keys stats;
      if hit : bool then
        let players_with_projections' := players_with_projections ++ [player_data] in
        if (3 <=? length players_with_projections')%nat
        then Ok players_with_projections'
        else sample_loop data' players_with_projections'
      else sample_loop data' players_with_projections
  end.

(** One turn of the printing loop.  The console is not modelled, only the
    evaluation of what is printed: the two reads of the player's name and the
    read of the stats. *)
Definition print_sample (player_data : json) : result () :=
  player ← py_get player_data "player" (JObj []);
  _ ← py_get player "first_name" (JStr "");
  player ← py_get player_data "player" (JObj []);
  _ ← py_get player "last_name" (JStr "");
  _ ← py_get player_data "stats" (JObj []);
  Ok ().

Fixpoint print_loop (players_with_projections : list json) : result () :=
  match players_with_projections with
  | [] => Ok ()
  | player_data :: rest => _ ← print_sample player_data; print_loop rest
  end.

(** The [try] block.  [Ok (Some d)] is [return projections_dict]; [Ok None]
    is leaving the block through the [else] of the status test. *)
Definition try_block (r : http_outcome) : result (option pydict) :=
  match r with
  | RequestFailed => Raise RequestException
  | Response status_code body =>
      if Z.eqb status_code 200 then
        data ← response_json body;
        _ ← py_len data;
        items ← py_iter data;
        projections_dict ← rekey_loop items [];
        first50 ← py_slice50 data;
        items50 ← py_iter first50;
        players_with_projections ← sample_loop items50 [];
        _ ← (if list_truthy players_with_projections
             then print_loop players_with_projections
             else Ok ());
        Ok (Some projections_dict)
      else Ok None
  end.

(** The dict that [get_weekly_projections] hands to its caller when every
    line it prints is printed: the [try] block, [except Exception] and the
    final [return {}].  The method with its prints, which can raise, is
    [Client.get_weekly_projections]; whenever that one returns, it returns
    this dict or the empty one. *)
Definition get_weekly_projections (r : http_outcome) : pydict :=
  match try_block r with
  | Ok (Some projections_dict) => projections_dict
  | Ok None => []
  | Raise _ => []
  end.

(** *** The accessor's contract, in the words of the specification *)

(** The ways a fetch fails: the transport, the status, the body. *)
Definition fetch_failed (r : http_outcome) : Prop :=
  match r with
  | RequestFailed => True
  | Response status_code body => status_code ≠ 200%Z ∨ body = None
  end.

(** The identifier an entry of the provider's list carries, if any. *)
Definition entry_player_id (player_data : json) : option json :=
  match player_data with
  | JObj fields =>
      match field "player_id" fields with
      | Some JNull | None => None
      | Some player_id => Some player_id
      end
  | _ => None
  end.

(** The list re-keyed: the record found under [k] is the last entry of the
    list that carries the identifier [k]; entries without identifier are
    under no key. *)
Definition spec_rekeyed (data : list json) (k : json) : option json :=
  List.find (λ player_data,
               match entry_player_id player_data with
               | Some player_id => key_eqb player_id k
               | None => false
               end)
            (rev data).

(** An entry of the shape the provider sends: an object whose [player_id],
    when there is one, can key a dict and is not an empty or zero value (the
    provider's ids are non-empty strings), and whose [stats] and [player],
    when there are any, are objects. *)
Definition is_object_or_absent (v : option json) : bool :=
  match v with
  | Some (JObj _) | None => true
  | _ => false
  end.

Definition provider_entry (player_data : json) : bool :=
  match player_data with
  | JObj fields =>
      match field "player_id" fields with
      | Some JNull | None => true
      | Some player_id => truthy player_id && hashable player_id
      end
      && is_object_or_absent (field "stats" fields)
      && is_object_or_absent (field "player" fields)
  | _ => false
  end.

End Accessor.

(** ** The records of the provider's schema, as [main] reads them

    An [option] field is a key that [main] reads with [.get]: [None] is the
    absent key.  The fields read with [x['k']] are mandatory. *)

Module User.
Record t := mk { user_id : string; display_name : option string }.
End User.

Module Roster.
Record t := mk {
  roster_id : Z;
  owner_id : option string;
  starters : option (list (option string))
}.
End Roster.

Module Matchup.
Record t := mk {
  roster_id : Z;
  points : option Q;
  starters_points : option (list Q);
  players_points : option (gmap string Q)
}.
End Matchup.

Module Projection.
Record t := mk { stats : option (gmap string Q) }.
End Projection.

(** One entry of [teams_data]. *)
Module Team.
Record t := mk {
  team_name : string;
  roster_id : Z;
  current_points : Q;
  projected_points : Q;
  starters_total : nat;
  starters_played : nat
}.
End Team.

Module Ranker.

(** [user_lookup = {user['user_id']: user for user in users}]: a later user
    with the same id replaces an earlier one. *)
Definition user_lookup (users : list User.t) : gmap string User.t :=
  fold_left (λ m u, <[User.user_id u := u]> m) users ∅.

(** [user = user_lookup.get(owner_id, {})] followed by
    [user.get('display_name', f"Team {roster['roster_id']}")]. *)
Definition team_name (lookup : gmap string User.t) (roster : Roster.t) : string :=
  let user := Roster.owner_id roster ≫= (lookup !!.) in
  default ("Team " +:+ pretty (Roster.roster_id roster))
          (user ≫= User.display_name).

(** [next((m for m in matchups if m['roster_id'] == roster['roster_id']), {})];
    [None] stands for the empty dict of the default. *)
Definition find_matchup (matchups : list Matchup.t) (roster : Roster.t)
  : option Matchup.t :=
  List.find (λ m, Z.eqb (Matchup.roster_id m) (Roster.roster_id roster)) matchups.

(** [current_points = matchup_data.get('points', 0)]. *)
Definition current_points (matchup_data : option Matchup.t) : Q :=
  default 0%Q (matchup_data ≫= Matchup.points).

(** [starters_points = matchup_data.get('starters_points', [])]. *)
Definition starters_points (matchup_data : option Matchup.t) : list Q :=
  default [] (matchup_data ≫= Matchup.starters_points).

(** [total_current = sum(starters_points) if starters_points else current_points]. *)
Definition total_current (matchup_data : option Matchup.t) : Q :=
  if list_truthy (starters_points matchup_data)
  then py_sum (starters_points matchup_data)
  else current_points matchup_data.

(** [starters = roster.get('starters', [])]. *)
Definition starters (roster : Roster.t) : list (option string) :=
  default [] (Roster.starters roster).

(** [stats.get(k, 0)]. *)
Definition stats_get (stats : gmap string Q) (k : string) : Q :=
  default 0%Q (stats !! k).

(** The chain of [or] over the four projection fields. *)
Definition player_proj (stats : gmap string Q) : Q :=
  py_or (stats_get stats "pts_ppr")
    (py_or (stats_get stats "fantasy_points_ppr")
       (py_or (stats_get stats "projected_points")
          (stats_get stats "pts_std"))).

(** One turn of [for player_id in starters:] on the accumulator
    [weekly_projected]. *)
Definition add_starter (weekly_projections : gmap string Projection.t)
    (acc : Q) (player_id : option string) : Q :=
  match player_id with
  | Some pid =>
      if slot_truthy player_id then
        match weekly_projections !! pid with
        | Some player_proj_data =>
            let stats := default ∅ (Projection.stats player_proj_data) in
            (acc + player_proj stats)%Q
        | None => acc
        end
      else acc
  | None => acc
  end.

(** [weekly_projected]: [0], then the loop when [weekly_projections] is
    truthy. *)
Definition weekly_projected (weekly_projections : gmap string Projection.t)
    (starters : list (option string)) : Q :=
  if dict_truthy weekly_projections
  then fold_left (add_starter weekly_projections) starters 0%Q
  else 0%Q.

(** [projected_points = weekly_projected if weekly_projected > 0 else total_current]. *)
Definition projected_points (weekly_projected total_current : Q) : Q :=
  if Qgtb weekly_projected 0 then weekly_projected else total_current.

(** The second loop over the starters: a starter has played when
    [players_points.get(player_id, 0) > 0]. *)
Definition count_played (players_points : gmap string Q)
    (acc : nat) (player_id : option string) : nat :=
  match player_id with
  | Some pid =>
      if slot_truthy player_id then
        if Qgtb (default 0%Q (players_points !! pid)) 0 then S acc else acc
      else acc
  | None => acc
  end.

Definition starters_played (matchup_data : option Matchup.t)
    (starters : list (option string)) : nat :=
  let players_points := default ∅ (matchup_data ≫= Matchup.players_points) in
  fold_left (count_played players_points) starters 0%nat.

(** The body of [for roster in rosters:], the dict appended to [teams_data]. *)
Definition team_summary (lookup : gmap string User.t)
    (matchups : list Matchup.t)
    (weekly_projections : gmap string Projection.t)
    (roster : Roster.t) : Team.t :=
  let matchup_data := find_matchup matchups roster in
  let starters := starters roster in
  {| Team.team_name := team_name lookup roster;
     Team.roster_id := Roster.roster_id roster;
     Team.current_points := total_current matchup_data;
     Team.projected_points :=
       projected_points (weekly_projected weekly_projections starters)
                        (total_current matchup_data);
     Team.starters_total := length (List.filter slot_truthy starters);
     Team.starters_played := starters_played matchup_data starters |}.

Definition teams_data (users : list User.t) (rosters : list Roster.t)
    (matchups : list Matchup.t)
    (weekly_projections : gmap string Projection.t) : list Team.t :=
  map (team_summary (user_lookup users) matchups weekly_projections) rosters.

(** [active_teams = [team for team in teams_data if team['projected_points'] > 0]]. *)
Definition is_active (team : Team.t) : bool :=
  Qgtb (Team.projected_points team) 0.

(** [active_teams] after [active_teams.sort(key=lambda x: x['projected_points'])]:
    the list that both reports are written from. *)
Definition active_teams (users : list User.t) (rosters : list Roster.t)
    (matchups : list Matchup.t)
    (weekly_projections : gmap string Projection.t) : list Team.t :=
  sort_by_key Team.projected_points
    (List.filter is_active (teams_data users rosters matchups weekly_projections)).

End Ranker.

(** ** The ranking rules, in the words of the specification *)

Module Spec.


(** A field that is absent from the stats or holds zero. *)
Definition zero_or_absent (o : option Q) : Prop :=
  match o with
  | Some v => (v == 0)%Q
  | None => True
  end.




End Spec.

(** ** What the dict of the accessor holds *)

Module Dict.

(** The record [v] of the list [data] is filed under the key [k]: [k] can key
    a dict, is no empty or zero value, and equals the [player_id] of [v]. *)
Definition filed_under (data : list json) (k v : json) : Prop :=
  Accessor.truthy k = true ∧ Accessor.hashable k = true ∧ v ∈ data ∧
  ∃ fields player_id,
    v = JObj fields ∧
    Accessor.field "player_id" fields = Some player_id ∧
    Accessor.key_eqb k player_id = true.

(** No two keys of the dict are equal. *)
Definition distinct_keys (d : Accessor.pydict) : Prop :=
  ForallOrdPairs (λ p q, Accessor.key_eqb p.1 q.1 = false) d.

(** A record that the first loop cannot file: it is no object, or its
    [player_id] is a non-empty list or object, which cannot key a dict. *)
Definition unfileable (player_data : json) : bool :=
  match player_data with
  | JObj fields =>
      match Accessor.field "player_id" fields with
      | Some player_id =>
          Accessor.truthy player_id && negb (Accessor.hashable player_id)
      | None => false
      end
  | _ => true
  end.

End Dict.

(** ** The analyzer with its console and its network

    The methods of [SleeperLeagueAnalyzer] and the fetches of [main], with
    the [print] calls they make.  [get_league_info], [get_users],
    [get_rosters], [get_matchups] and [get_nfl_state] share one body: the
    print of the URL, the request, [response.raise_for_status()],
    [return response.json()]; [get_players] is the same without the print.
    The URL is kept as the endpoint it names; the league id is the one of the
    analyzer throughout a run. *)

Module Client.

Inductive endpoint :=
| LeagueInfo                 (* {base_url}/league/{league_id} *)
| Users                      (* {base_url}/league/{league_id}/users *)
| Rosters                    (* {base_url}/league/{league_id}/rosters *)
| NflState                   (* {base_url}/state/nfl *)
| Matchups (week : json)     (* {base_url}/league/{league_id}/matchups/{week} *)
| Players                    (* {base_url}/players/nfl *)
| Projections (week : json). (* api.sleeper.com/projections/nfl/2025/{week} *)

(** What the network answers to a request. *)
Definition network := endpoint → Accessor.http_outcome.

(** The lines the program prints, by the statement that prints them. *)
Inductive line :=
| Fetching                        (* Fetching league data... *)
| ApiRequest (e : endpoint)       (* API Request: {url} [with params: {params}] *)
| Searching (week : json)         (* Searching for weekly projections for week {week}... *)
| Found (n : nat)                 (* U+2713 Found projections: {n} players *)
| PlayersHeader                   (* Players with projection data: *)
| PlayerLine (player_data : json) (*   {player_name}: {stats} *)
| NoPlayers                       (* No players found with projection stats in first 50 entries *)
| NoData (status_code : Z)        (* U+2717 No data at: {url} (Status: {status_code}) *)
| Error (e : exn).                (* U+2717 Error at: {url} - {e} *)

(** The console: the lines that standard output can take.  On any other
    line [print] raises, as it does with [UnicodeEncodeError] on a character
    that the encoding of standard output does not have. *)
Definition console := line → bool.

Definition print (c : console) (l : line) : result () :=
  if c l then Ok () else Raise UnicodeEncodeError.

(** A console that takes every line, as one whose encoding is UTF-8. *)
Definition utf8 : console := λ _, true.

(** A console whose encoding has neither U+2713 nor U+2717, as ASCII. *)
Definition ascii : console :=
  λ l, match l with
       | Found _ | NoData _ | Error _ => false
       | _ => true
       end.

(** *** [get_weekly_projections], prints included *)

(** The printing loop over the sampled players: the two reads of the name,
    the read of the stats, the print. *)
Fixpoint print_loop (c : console) (players_with_projections : list json)
  : result () :=
  match players_with_projections with
  | [] => Ok ()
  | player_data :: rest =>
      _ ← Accessor.print_sample player_data;
      _ ← print c (PlayerLine player_data);
      print_loop c rest
  end.

(** The [try] block.  [Ok (Some d)] is [return projections_dict]; [Ok None]
    is leaving the block through the [else] of the status test. *)
Definition try_block (c : console) (week : json) (r : Accessor.http_outcome)
  : result (option Accessor.pydict) :=
  _ ← print c (ApiRequest (Projections week));
  match r with
  | Accessor.RequestFailed => Raise RequestException
  | Accessor.Response status_code body =>
      if Z.eqb status_code 200 then
        data ← Accessor.response_json body;
        n ← Accessor.py_len data;
        _ ← print c (Found n);
        items ← Accessor.py_iter data;
        projections_dict ← Accessor.rekey_loop items [];
        first50 ← Accessor.py_slice50 data;
        items50 ← Accessor.py_iter first50;
        players_with_projections ← Accessor.sample_loop items50 [];
        _ ← (if list_truthy players_with_projections
             then _ ← print c PlayersHeader;
                  print_loop c players_with_projections
             else print c NoPlayers);
        Ok (Some projections_dict)
      else
        _ ← print c (NoData status_code);
        Ok None
  end.

(** [get_weekly_projections(week)], from the outcome of its request: the
    [try] block, the handler [except Exception as e] with its print, and the
    final [return {}]. *)
Definition get_weekly_projections (c : console) (week : json)
    (r : Accessor.http_outcome) : result Accessor.pydict :=
  match try_block c week r with
  | Ok (Some projections_dict) => Ok projections_dict
  | Ok None => Ok []
  | Raise e => _ ← print c (Error e); Ok []
  end.

(** *** The required accessors *)

(** [response.raise_for_status()]: an [HTTPError], which is a
    [RequestException], for a status from 400 to 599. *)
Definition raise_for_status (status_code : Z) : result () :=
  if (400 <=? status_code)%Z && (status_code <? 600)%Z
  then Raise RequestException
  else Ok ().

(** From the outcome of [requests.get(url)]:
    [response.raise_for_status()], then [return response.json()]. *)
Definition get_json (r : Accessor.http_outcome) : result json :=
  match r with
  | Accessor.RequestFailed => Raise RequestException
  | Accessor.Response status_code body =>
      _ ← raise_for_status status_code;
      Accessor.response_json body
  end.

(** The body shared by the accessors that print their URL. *)
Definition fetch (c : console) (net : network) (e : endpoint) : result json :=
  _ ← print c (ApiRequest e);
  get_json (net e).

Definition get_league_info (c : console) (net : network) : result json :=
  fetch c net LeagueInfo.

Definition get_users (c : console) (net : network) : result json :=
  fetch c net Users.

Definition get_rosters (c : console) (net : network) : result json :=
  fetch c net Rosters.

Definition get_nfl_state (c : console) (net : network) : result json :=
  fetch c net NflState.

Definition get_matchups (c : console) (net : network) (week : json)
  : result json :=
  fetch c net (Matchups week).

Definition get_players (net : network) : result json :=
  get_json (net Players).

(** [v[k]] for a string [k]. *)
Definition py_getitem (v : json) (k : string) : result json :=
  match v with
  | JObj fields =>
      match Accessor.field k fields with
      | Some x => Ok x
      | None => Raise KeyError
      end
  | _ => Raise TypeError
  end.

(** *** The fetches of [main] *)

(** What [main] holds after its fetches. *)
Record league_data := LeagueData {
  league_info : json;
  users : json;
  rosters : json;
  nfl_state : json;
  current_week : json;
  matchups : json;
  players_data : json;
  weekly_projections : Accessor.pydict
}.

(** The head of the [try] of [main], down to the call of
    [get_weekly_projections]. *)
Definition fetch_league_data (c : console) (net : network)
  : result league_data :=
  _ ← print c Fetching;
  league_info ← get_league_info c net;
  users ← get_users c net;
  rosters ← get_rosters c net;
  nfl_state ← get_nfl_state c net;
  current_week ← py_getitem nfl_state "week";
  matchups ← get_matchups c net current_week;
  players_data ← get_players net;
  _ ← print c (Searching current_week);
  weekly_projections ←
    get_weekly_projections c current_week (net (Projections current_week));
  Ok (LeagueData league_info users rosters nfl_state current_week matchups
        players_data weekly_projections).

(** An answer that a required accessor returns [v] from: no transport
    error, a status that is no 4xx and no 5xx, a body that decodes to [v]. *)
Definition answered (r : Accessor.http_outcome) (v : json) : Prop :=
  ∃ status_code,
    r = Accessor.Response status_code (Some v) ∧
    (status_code < 400 ∨ 600 ≤ status_code)%Z.

End Client.

(** ** The export of the ranked list

    Both reports go through [enumerate(active_teams, 1)].  The rows are kept
    as values: the text of the CSV file and the cells of the workbook, with
    [round(team['projected_points'], 2)] among them, are not modelled. *)

Module Report.

(** [enumerate(l, 1)]. *)
Definition enumerate1 {A} (l : list A) : list (nat * A) :=
  imap (λ k x, (S k, x)) l.

(** The dict that [writer.writerow] receives. *)
Record csv_row := CsvRow {
  risk_rank : nat;
  team_name : string;
  current_points : Q;
  projected_points : Q;
  starters_played : nat;
  total_starters : nat
}.

Definition csv_rows (active_teams : list Team.t) : list csv_row :=
  map (λ it : nat * Team.t,
         CsvRow it.1 (Team.team_name it.2) (Team.current_points it.2)
           (Team.projected_points it.2) (Team.starters_played it.2)
           (Team.starters_total it.2))
      (enumerate1 active_teams).

Inductive fill := red_fill | yellow_fill | green_fill.

(** The colour of the row of risk rank [i]. *)
Definition fill_color (i : nat) : fill :=
  if (i <=? 2)%nat then red_fill
  else if (i <=? 5)%nat then yellow_fill
  else green_fill.

(** A data row of the sheet: its row number [i + 1], its colour, and the
    team whose fields fill its cells. *)
Record sheet_row := SheetRow {
  row : nat;
  fill_of : fill;
  rank : nat;
  team : Team.t
}.

Definition sheet_rows (active_teams : list Team.t) : list sheet_row :=
  map (λ it : nat * Team.t, SheetRow (it.1 + 1) (fill_color it.1) it.1 it.2)
      (enumerate1 active_teams).

(** The loop over the cells of a column, on the lengths of their texts
    [len(str(cell.value))]. *)
Definition max_length (lengths : list nat) : nat :=
  fold_left (λ max_length len, if (max_length <? len)%nat then len else max_length)
            lengths 0%nat.

(** [adjusted_width = min(max_length + 2, 50)]. *)
Definition adjusted_width (lengths : list nat) : nat :=
  Nat.min (max_length lengths + 2) 50.

(** The count printed as [Eliminated]:
    [len(teams_data) - len(active_teams)]. *)
Definition eliminated (teams_data active_teams : list Team.t) : Z :=
  (Z.of_nat (length teams_data) - Z.of_nat (length active_teams))%Z.

End Report.

(** ** The join, whatever the numbers are

    The same statements of [main] as in [Ranker], reading the points through
    the operations Python applies to them: the literal [0], [x + y], [x > y],
    [x < y] and [bool(x)].  Nothing is assumed of these operations. *)

Class Number (num : Type) := {
  py_zero : num;
  py_add : num → num → num;
  py_gt : num → num → bool;
  py_lt : num → num → bool;
  py_bool : num → bool
}.

(** The exact rationals of [Ranker]. *)
#[global] Instance Q_number : Number Q := {|
  py_zero := 0%Q;
  py_add := Qplus;
  py_gt := Qgtb;
  py_lt := Qltb;
  py_bool := num_truthy
|}.

(** Python's [float]: IEEE 754 binary64, rounding to nearest even. *)
#[global] Instance float_number : Number float := {|
  py_zero := 0%float;
  py_add := PrimFloat.add;
  py_gt := λ x y, PrimFloat.ltb y x;
  py_lt := PrimFloat.ltb;
  py_bool := λ x, negb (PrimFloat.eqb x 0%float)
|}.

Module NumMatchup.
Record t (num : Type) := mk {
  roster_id : Z;
  points : option num;
  starters_points : option (list num);
  players_points : option (gmap string num)
}.
Arguments mk {num} _ _ _ _.
Arguments roster_id {num} _.
Arguments points {num} _.
Arguments starters_points {num} _.
Arguments players_points {num} _.
End NumMatchup.

Module NumProjection.
Record t (num : Type) := mk { stats : option (gmap string num) }.
Arguments mk {num} _.
Arguments stats {num} _.
End NumProjection.

Module NumTeam.
Record t (num : Type) := mk {
  team_name : string;
  roster_id : Z;
  current_points : num;
  projected_points : num;
  starters_total : nat;
  starters_played : nat
}.
Arguments mk {num} _ _ _ _ _ _.
Arguments team_name {num} _.
Arguments roster_id {num} _.
Arguments current_points {num} _.
Arguments projected_points {num} _.
Arguments starters_total {num} _.
Arguments starters_played {num} _.
End NumTeam.

Module Join.
Section Numbers.
Context {num : Type} `{Number num}.

(** [a or b]. *)
Definition py_or (a b : num) : num := if py_bool a then a else b.

(** The builtin [sum(l)]: [+] from the left, from the literal [0]. *)
Definition py_sum (l : list num) : num := fold_left py_add l py_zero.

(** [next((m for m in matchups if m['roster_id'] == roster['roster_id']), {})]. *)
Definition find_matchup (matchups : list (NumMatchup.t num)) (roster : Roster.t)
  : option (NumMatchup.t num) :=
  List.find (λ m, Z.eqb (NumMatchup.roster_id m) (Roster.roster_id roster))
            matchups.

(** [current_points = matchup_data.get('points', 0)]. *)
Definition current_points (matchup_data : option (NumMatchup.t num)) : num :=
  default py_zero (matchup_data ≫= NumMatchup.points).

(** [starters_points = matchup_data.get('starters_points', [])]. *)
Definition starters_points (matchup_data : option (NumMatchup.t num))
  : list num :=
  default [] (matchup_data ≫= NumMatchup.starters_points).

(** [total_current = sum(starters_points) if starters_points else current_points]. *)
Definition total_current (matchup_data : option (NumMatchup.t num)) : num :=
  if list_truthy (starters_points matchup_data)
  then py_sum (starters_points matchup_data)
  else current_points matchup_data.

(** [stats.get(k, 0)]. *)
Definition stats_get (stats : gmap string num) (k : string) : num :=
  default py_zero (stats !! k).

(** The chain of [or] over the four projection fields. *)
Definition player_proj (stats : gmap string num) : num :=
  py_or (stats_get stats "pts_ppr")
    (py_or (stats_get stats "fantasy_points_ppr")
       (py_or (stats_get stats "projected_points")
          (stats_get stats "pts_std"))).

(** One turn of [for player_id in starters:] on [weekly_projected]. *)
Definition add_starter (weekly_projections : gmap string (NumProjection.t num))
    (acc : num) (player_id : option string) : num :=
  match player_id with
  | Some pid =>
      if slot_truthy player_id then
        match weekly_projections !! pid with
        | Some player_proj_data =>
            let stats := default ∅ (NumProjection.stats player_proj_data) in
            py_add acc (player_proj stats)
        | None => acc
        end
      else acc
  | None => acc
  end.

(** [weekly_projected]: [0], then the loop when [weekly_projections] is
    truthy. *)
Definition weekly_projected
    (weekly_projections : gmap string (NumProjection.t num))
    (starters : list (option string)) : num :=
  if dict_truthy weekly_projections
  then fold_left (add_starter weekly_projections) starters py_zero
  else py_zero.

(** [projected_points = weekly_projected if weekly_projected > 0 else total_current]. *)
Definition projected_points (weekly_projected total_current : num) : num :=
  if py_gt weekly_projected py_zero then weekly_projected else total_current.

(** The second loop over the starters. *)
Definition count_played (players_points : gmap string num)
    (acc : nat) (player_id : option string) : nat :=
  match player_id with
  | Some pid =>
      if slot_truthy player_id then
        if py_gt (default py_zero (players_points !! pid)) py_zero
        then S acc else acc
      else acc
  | None => acc
  end.

Definition starters_played (matchup_data : option (NumMatchup.t num))
    (starters : list (option string)) : nat :=
  let players_points :=
    default ∅ (matchup_data ≫= NumMatchup.players_points) in
  fold_left (count_played players_points) starters 0%nat.

(** The body of [for roster in rosters:]. *)
Definition team_summary (lookup : gmap string User.t)
    (matchups : list (NumMatchup.t num))
    (weekly_projections : gmap string (NumProjection.t num))
    (roster : Roster.t) : NumTeam.t num :=
  let matchup_data := find_matchup matchups roster in
  let starters := Ranker.starters roster in
  NumTeam.mk (Ranker.team_name lookup roster) (Roster.roster_id roster)
    (total_current matchup_data)
    (projected_points (weekly_projected weekly_projections starters)
                      (total_current matchup_data))
    (length (List.filter slot_truthy starters))
    (starters_played matchup_data starters).

Definition teams_data (users : list User.t) (rosters : list Roster.t)
    (matchups : list (NumMatchup.t num))
    (weekly_projections : gmap string (NumProjection.t num))
  : list (NumTeam.t num) :=
  map (team_summary (Ranker.user_lookup users) matchups weekly_projections)
      rosters.

(** [team['projected_points'] > 0]. *)
Definition is_active (team : NumTeam.t num) : bool :=
  py_gt (NumTeam.projected_points team) py_zero.

(** [list.sort(key=...)], as in [sort_by_key], with the numbers' [<]. *)
Fixpoint insert_by_key {A} (key : A → num) (x : A) (l : list A) : list A :=
  match l with
  | [] => [x]
  | y :: l' =>
      if py_lt (key y) (key x) then y :: insert_by_key key x l'
      else x :: y :: l'
  end.

Definition sort_by_key {A} (key : A → num) (l : list A) : list A :=
  foldr (insert_by_key key) [] l.

(** The filtered and sorted list. *)
Definition active_teams (users : list User.t) (rosters : list Roster.t)
    (matchups : list (NumMatchup.t num))
    (weekly_projections : gmap string (NumProjection.t num))
  : list (NumTeam.t num) :=
  sort_by_key NumTeam.projected_points
    (List.filter is_active (teams_data users rosters matchups weekly_projections)).

(** *** The sums, in the words of the specification *)

(** The sum of the first [n] numbers of a list, taken from the left:
    [((0 + x1) + x2) + ... + xn]. *)
Fixpoint sum_first (n : nat) (l : list num) : num :=
  match n with
  | 0%nat => py_zero
  | S n' => py_add (sum_first n' l) (nth n' l py_zero)
  end.

(** The sum of a list. *)
Definition left_sum (l : list num) : num := sum_first (length l) l.

(** The projected value of a player: the first of [pts_ppr],
    [fantasy_points_ppr] and [projected_points] that counts as true, an
    absent field being read as [0]; else what the stats hold as [pts_std],
    else [0]. *)
Definition player_value (stats : gmap string num) : num :=
  default (default py_zero (stats !! "pts_std"))
          (List.find py_bool
             (map (λ k, default py_zero (stats !! k))
                  ["pts_ppr"; "fantasy_points_ppr"; "projected_points"])).

(** The weekly projections of the starters who have a record, in the order
    of the slots. *)
Definition starter_projections
    (weekly_projections : gmap string (NumProjection.t num))
    (starters : list (option string)) : list num :=
  omap (λ slot : option string,
          pid ← slot;
          if decide (pid = "") then None
          else record ← weekly_projections !! pid;
               Some (player_value (default ∅ (NumProjection.stats record))))
       starters.

End Numbers.
End Join.

(** ** Concrete leagues *)

Module Scenario.

(** The three-team league of the specification: team A's starter has a
    projection record worth 0 and A has scored 40; team B's starter is
    projected 85.4 and B has scored 10.2; team C's starter has no projection
    record and C has scored 22.0. *)
Definition users : list User.t :=
  [User.mk "uA" (Some "A"); User.mk "uB" (Some "B"); User.mk "uC" (Some "C")].

Definition rosterA : Roster.t := Roster.mk 1 (Some "uA") (Some [Some "a1"]).
Definition rosterB : Roster.t := Roster.mk 2 (Some "uB") (Some [Some "b1"]).
Definition rosterC : Roster.t := Roster.mk 3 (Some "uC") (Some [Some "c1"; None]).

Definition rosters : list Roster.t := [rosterA; rosterB; rosterC].

Definition matchups : list Matchup.t :=
  [Matchup.mk 1 (Some 40%Q) (Some [40%Q]) (Some {["a1" := 40%Q]});
   Matchup.mk 2 (Some (51 # 5)%Q) (Some [(51 # 5)%Q]) None;
   Matchup.mk 3 (Some 22%Q) None None].

Definition weekly_projections : gmap string Projection.t :=
  {[ "a1" := Projection.mk (Some {["pts_ppr" := 0%Q]});
     "b1" := Projection.mk (Some {["pts_ppr" := (427 # 5)%Q]}) ]}.

(** The entries of [teams_data] for the three teams. *)
Definition teamA : Team.t := Team.mk "A" 1 40%Q 40%Q 1 1.
Definition teamB : Team.t := Team.mk "B" 2 (51 # 5)%Q (427 # 5)%Q 1 0.
Definition teamC : Team.t := Team.mk "C" 3 22%Q 22%Q 1 0.

(** A fourth roster, of an eliminated team: no owner, no starters, no
    matchup. *)
Definition rosterD : Roster.t := Roster.mk 4 None None.
Definition teamD : Team.t := Team.mk "Team 4" 4 0%Q 0%Q 0 0.

(** Two more rosters that tie at 22.0 with team C. *)
Definition rosterE : Roster.t := Roster.mk 5 None (Some [Some "e1"]).
Definition rosterF : Roster.t := Roster.mk 6 None (Some [Some "f1"]).
Definition tie_matchups : list Matchup.t :=
  matchups ++ [Matchup.mk 5 (Some 22%Q) None None;
               Matchup.mk 6 None (Some [(21 # 2)%Q; (23 # 2)%Q]) None].
Definition teamE : Team.t := Team.mk "Team 5" 5 22%Q 22%Q 1 0.
Definition teamF : Team.t := Team.mk "Team 6" 6 (88 # 4)%Q (88 # 4)%Q 1 0.

(** A one-team league whose only starter has scored [-2] and for which the
    provider has no projections. *)
Definition losing_roster : Roster.t := Roster.mk 7 None (Some [Some "k1"]).
Definition losing_matchups : list Matchup.t :=
  [Matchup.mk 7 (Some (-2)%Q) (Some [(-2)%Q]) None].

(** A projection record whose first alias is zero, whose second is absent
    and whose third is the first that counts. *)
Definition alias_stats : gmap string Q :=
  {[ "pts_ppr" := 0%Q; "projected_points" := (25 # 2)%Q; "pts_std" := 9%Q ]}.
Definition alias_record : Projection.t := Projection.mk (Some alias_stats).
Definition alias_projections : gmap string Projection.t :=
  {[ "p1" := alias_record ]}.

(** A body of the projections endpoint: two records for player 4046, one
    record without identifier, one for player 96. *)
Definition entry (pid : option string) (pts : Q) : json :=
  JObj (match pid with Some s => [("player_id", JStr s)] | None => [] end
        ++ [("stats", JObj [("pts_ppr", JNum pts)]);
            ("player", JObj [("first_name", JStr "P")])]).

Definition body : list json :=
  [entry (Some "4046") 21%Q; entry None 3%Q; entry (Some "96") 17%Q;
   entry (Some "4046") 19%Q].

(** The same body with a record whose [stats] is [null]. *)
Definition body_null_stats : list json :=
  [JObj [("player_id", JStr "4046"); ("stats", JNull)]].

End Scenario.

(** ** More concrete inputs *)

Module Fixture.

(** Two users with the same id: the later one renames the team. *)
Definition users : list User.t :=
  [User.mk "u1" (Some "Old name"); User.mk "u2" None;
   User.mk "u1" (Some "New name")].

Definition owned : Roster.t :=
  Roster.mk 11 (Some "u1") (Some [Some "p1"; None; Some ""; Some "p2"]).
Definition unnamed : Roster.t := Roster.mk 12 (Some "u2") (Some [Some "p3"]).
Definition rosters : list Roster.t := [owned; unnamed].

(** The same roster as [owned] without its two empty slots. *)
Definition owned_compact : Roster.t :=
  Roster.mk 11 (Some "u1") (Some [Some "p1"; Some "p2"]).

Definition matchups : list Matchup.t :=
  [Matchup.mk 11 (Some 30%Q) (Some [18%Q; 0%Q; 0%Q; 12%Q])
     (Some {[ "p1" := 18%Q; "p2" := 12%Q; "" := 5%Q ]});
   Matchup.mk 12 (Some 7%Q) None (Some {[ "p3" := 7%Q ]})].

(** Projections for a starter, for a bench player, and under the empty id. *)
Definition weekly_projections : gmap string Projection.t :=
  {[ "p1" := Projection.mk (Some {[ "pts_ppr" := 20%Q ]});
     "bench" := Projection.mk (Some {[ "pts_ppr" := 99%Q ]});
     "" := Projection.mk (Some {[ "pts_ppr" := 50%Q ]}) ]}.

(** The same without the bench player. *)
Definition starters_projections : gmap string Projection.t :=
  {[ "p1" := Projection.mk (Some {[ "pts_ppr" := 20%Q ]});
     "" := Projection.mk (Some {[ "pts_ppr" := 50%Q ]}) ]}.

Definition owned_team : Team.t := Team.mk "New name" 11 30%Q 20%Q 2 2.
Definition unnamed_team : Team.t := Team.mk "Team 12" 12 7%Q 7%Q 1 1.

(** A network on which every required endpoint answers, the players
    endpoint with status 203; the state gives week 3 and the projections
    endpoint answers as [projections]. *)
Definition network (projections : Accessor.http_outcome) : Client.network :=
  λ e, match e with
       | Client.NflState =>
           Accessor.Response 200 (Some (JObj [("week", JNum 3); ("season", JStr "2025")]))
       | Client.LeagueInfo =>
           Accessor.Response 200 (Some (JObj [("name", JStr "Chopped")]))
       | Client.Players => Accessor.Response 203 (Some (JObj []))
       | Client.Projections _ => projections
       | _ => Accessor.Response 200 (Some (JArr []))
       end.

(** The same network with the rosters endpoint answering 404, with a body
    that decodes. *)
Definition network_no_rosters : Client.network :=
  λ e, match e with
       | Client.Rosters => Accessor.Response 404 (Some (JArr []))
       | _ => network Accessor.RequestFailed e
       end.

(** A console that can print U+2717 and cannot print U+2713. *)
Definition no_check_mark : Client.console :=
  λ l, match l with
       | Client.Found _ => false
       | _ => true
       end.

(** A body of the projections endpoint with a record that is not an
    object. *)
Definition body_with_string : list json :=
  [Scenario.entry (Some "4046") 21%Q; JStr "oops"].

End Fixture.

(** ** A league in floats *)

Module FloatLeague.

(** Three starters projected 1e16, 1 and -1e16, whose sum from the left is
    0.0 in floats and 1 exactly; three projected 0.1, 0.2 and -0.3, whose
    sum from the left is 2^-54 in floats and 0 exactly. *)
Definition weekly_projections : gmap string (NumProjection.t float) :=
  {[ "a" := NumProjection.mk (Some {[ "pts_ppr" := 1e16%float ]});
     "b" := NumProjection.mk (Some {[ "pts_ppr" := 1%float ]});
     "c" := NumProjection.mk (Some {[ "pts_ppr" := (-1e16)%float ]});
     "d" := NumProjection.mk (Some {[ "pts_ppr" := 0.1%float ]});
     "e" := NumProjection.mk (Some {[ "pts_ppr" := 0.2%float ]});
     "f" := NumProjection.mk (Some {[ "pts_ppr" := (-0.3)%float ]}) ]}.

Definition big : Roster.t := Roster.mk 1 None (Some [Some "a"; Some "b"; Some "c"]).
Definition small : Roster.t := Roster.mk 2 None (Some [Some "d"; None; Some "e"; Some "f"]).
Definition unmatched : Roster.t := Roster.mk 3 None (Some [Some "a"; Some "b"; Some "c"]).
Definition rosters : list Roster.t := [big; small; unmatched].

(** Roster 1 has scored 10; roster 2 has a total of 5 and the per-starter
    points 0.1 and 0.2; roster 3 has no matchup. *)
Definition matchups : list (NumMatchup.t float) :=
  [NumMatchup.mk 1 (Some 10%float) None None;
   NumMatchup.mk 2 (Some 5%float) (Some [0.1%float; 0.2%float]) None].

Definition big_team : NumTeam.t float :=
  NumTeam.mk "Team 1" 1 10%float 10%float 3 0.
Definition small_team : NumTeam.t float :=
  NumTeam.mk "Team 2" 2 0.30000000000000004%float 5.551115123125783e-17%float 3 0.
Definition unmatched_team : NumTeam.t float :=
  NumTeam.mk "Team 3" 3 0%float 0%float 3 0.

End FloatLeague.

(** ** Facts about the number tests *)

Lemma Qgtb_true (x y : Q) : Qgtb x y = true ↔ (y < x)%Q.
Proof.
  unfold Qgtb. rewrite negb_true_iff, <- not_true_iff_false, Qle_bool_iff.
  split; [apply Qnot_le_lt | apply Qlt_not_le].
Qed.

Lemma Qgtb_false (x y : Q) : Qgtb x y = false ↔ (x <= y)%Q.
Proof. unfold Qgtb. by rewrite negb_false_iff, Qle_bool_iff. Qed.

Lemma Qltb_true (x y : Q) : Qltb x y = true ↔ (x < y)%Q.
Proof. apply Qgtb_true. Qed.

Lemma Qltb_false (x y : Q) : Qltb x y = false ↔ (y <= x)%Q.
Proof. apply Qgtb_false. Qed.

Lemma num_truthy_true (x : Q) : num_truthy x = true ↔ ¬ (x == 0)%Q.
Proof.
  unfold num_truthy.
  by rewrite negb_true_iff, <- not_true_iff_false, Qeq_bool_iff.
Qed.

Lemma num_truthy_false (x : Q) : num_truthy x = false ↔ (x == 0)%Q.
Proof. unfold num_truthy. by rewrite negb_false_iff, Qeq_bool_iff. Qed.

(** ** Facts about the sort *)

Section SortFacts.
Context {A : Type} (key : A → Q).

Lemma insert_by_key_elem_of (x y : A) (l : list A) :
  y ∈ insert_by_key key x l ↔ y = x ∨ y ∈ l.
Proof.
  induction l as [|z l IH]; simpl.
  - set_solver.
  - destruct (Qltb (key z) (key x)); rewrite ?elem_of_cons, ?IH; tauto.
Qed.

Lemma sort_by_key_elem_of (y : A) (l : list A) :
  y ∈ sort_by_key key l ↔ y ∈ l.
Proof.
  induction l as [|x l IH]; simpl; [done|].
  rewrite insert_by_key_elem_of, IH, elem_of_cons. tauto.
Qed.

Lemma insert_by_key_sorted (x : A) (l : list A) :
  Sorted (key_le key) l → Sorted (key_le key) (insert_by_key key x l).
Proof.
  induction l as [|z l IH]; simpl; intros Hs.
  - by repeat constructor.
  - destruct (Qltb (key z) (key x)) eqn:Hlt.
    + apply Sorted_inv in Hs as [Hs Hhd]. constructor; [by apply IH|].
      apply Qltb_true in Hlt.
      destruct l as [|w l]; simpl.
      * constructor. by apply Qlt_le_weak.
      * destruct (Qltb (key w) (key x)); constructor.
        -- by apply HdRel_inv in Hhd.
        -- by apply Qlt_le_weak.
    + apply Qltb_false in Hlt. constructor; [done|]. by constructor.
Qed.

Lemma sort_by_key_sorted (l : list A) : Sorted (key_le key) (sort_by_key key l).
Proof.
  induction l as [|x l IH]; simpl; [constructor|].
  by apply insert_by_key_sorted.
Qed.

(** In a sorted list, neighbours are in order. *)
Lemma sorted_neighbours (l : list A) (i : nat) (a b : A) :
  Sorted (key_le key) l → l !! i = Some a → l !! S i = Some b → key_le key a b.
Proof.
  intros Hs. revert i. induction Hs as [|x l Hs IH Hhd]; intros i Ha Hb.
  - done.
  - destruct i as [|i]; simpl in *.
    + simplify_eq. destruct l; simplify_eq/=. by apply HdRel_inv in Hhd.
    + eauto.
Qed.

(** Stability: the elements of one key keep their order. *)
Lemma insert_by_key_filter (q : Q) (x : A) (l : list A) :
  List.filter (has_key key q) (insert_by_key key x l) =
  if has_key key q x then x :: List.filter (has_key key q) l
  else List.filter (has_key key q) l.
Proof.
  induction l as [|z l IH]; simpl; [done|].
  destruct (Qltb (key z) (key x)) eqn:Hlt; simpl.
  - rewrite IH. destruct (has_key key q x) eqn:Hx; [|done].
    apply Qltb_true in Hlt. apply Qeq_bool_iff in Hx.
    assert (has_key key q z = false) as ->; [|done].
    apply not_true_iff_false. unfold has_key. rewrite Qeq_bool_iff.
    intros Hz. rewrite Hx, Hz in Hlt. by apply Qlt_irrefl in Hlt.
  - done.
Qed.

Lemma sort_by_key_filter (q : Q) (l : list A) :
  List.filter (has_key key q) (sort_by_key key l) = List.filter (has_key key q) l.
Proof.
  induction l as [|x l IH]; simpl; [done|].
  rewrite insert_by_key_filter, IH. done.
Qed.
End SortFacts.

(** ** Facts about the loop over the rosters *)

Section RankerFacts.
Context (users : list User.t) (rosters : list Roster.t)
        (matchups : list Matchup.t)
        (weekly_projections : gmap string Projection.t).

(** The [i]-th team is the summary of the [i]-th roster. *)
Lemma teams_data_lookup (i : nat) (team : Team.t) :
  Ranker.teams_data users rosters matchups weekly_projections !! i = Some team ↔
  ∃ roster, rosters !! i = Some roster ∧
    team = Ranker.team_summary (Ranker.user_lookup users) matchups
             weekly_projections roster.
Proof using Type.
  unfold Ranker.teams_data. revert i.
  induction rosters as [|r rs IH]; intros [|i]; simpl.
  - split; [done|]. by intros (? & ? & _).
  - split; [done|]. by intros (? & ? & _).
  - split; [intros [= <-]; eauto|]. intros (r' & Hr & ->). by injection Hr as ->.
  - apply IH.
Qed.


(** The exported teams are the teams of [teams_data] that pass the filter. *)
Lemma active_teams_elem_of (team : Team.t) :
  team ∈ Ranker.active_teams users rosters matchups weekly_projections ↔
  team ∈ Ranker.teams_data users rosters matchups weekly_projections ∧
  Ranker.is_active team = true.
Proof using Type.
  unfold Ranker.active_teams.
  by rewrite sort_by_key_elem_of, !list_elem_of_In, filter_In.
Qed.
End RankerFacts.

(** ** Facts about the projection of one player and of one team *)



Section ProjectionFacts.
Context (weekly_projections : gmap string Projection.t).




End ProjectionFacts.


(** ** Facts about positions in a filtered list *)

Section FilterFacts.
Context {A : Type} (P : A → bool).

(** Two kept elements stay in the order they were in. *)
Lemma filter_keeps_order (l : list A) (i j : nat) (a b : A) :
  l !! i = Some a → l !! j = Some b → (i < j)%nat →
  P a = true → P b = true →
  ∃ i' j', (i' < j')%nat ∧
    List.filter P l !! i' = Some a ∧ List.filter P l !! j' = Some b.
Proof using Type.
  intros Hi Hj Hlt Ha Hb.
  rewrite <- (take_drop_middle l i a Hi) in Hj |- *.
  rewrite lookup_app_r in Hj by (rewrite length_take; lia).
  rewrite length_take_le in Hj by (apply lookup_lt_Some in Hi; lia).
  destruct (j - i)%nat as [|k] eqn:Hk; [lia|]. simpl in Hj.
  rewrite <- (take_drop_middle _ k b Hj).
  rewrite !List.filter_app. simpl. rewrite Ha, List.filter_app. simpl.
  rewrite Hb.
  exists (length (List.filter P (take i l))).
  exists (length (List.filter P (take i l)) +
          S (length (List.filter P (take k (drop (S i) l)))))%nat.
  split; [lia|]. split.
  - by apply list_lookup_middle.
  - rewrite lookup_app_r by lia.
    replace (_ + _ - _)%nat
      with (S (length (List.filter P (take k (drop (S i) l))))) by lia.
    simpl. by apply list_lookup_middle.
Qed.

(** Two elements of the filtered list were in that order before. *)
Lemma filter_reflects_order (l : list A) (i' j' : nat) (a b : A) :
  List.filter P l !! i' = Some a → List.filter P l !! j' = Some b →
  (i' < j')%nat →
  ∃ i j, (i < j)%nat ∧ l !! i = Some a ∧ l !! j = Some b.
Proof using Type.
  revert i' j'. induction l as [|x l IH]; intros i' j' Hi Hj Hlt; [done|].
  simpl in Hi, Hj. destruct (P x).
  - destruct j' as [|j']; [lia|]. destruct i' as [|i']; simpl in *.
    + injection Hi as ->.
      assert (b ∈ l) as [k Hk]%list_elem_of_lookup.
      { apply list_elem_of_In.
        eapply proj1, filter_In, list_elem_of_In, list_elem_of_lookup_2, Hj. }
      exists 0%nat, (S k). split; [lia|]. done.
    + destruct (IH i' j' Hi Hj) as (i & j & ? & ? & ?); [lia|].
      exists (S i), (S j). split; [lia|]. done.
  - destruct (IH i' j' Hi Hj) as (i & j & ? & ? & ?); [lia|].
    exists (S i), (S j). split; [lia|]. done.
Qed.
End FilterFacts.

(** ** Facts about the matchup of a roster *)

Lemma find_matchup_none (matchups : list Matchup.t) (roster : Roster.t) :
  (∀ m, m ∈ matchups → Matchup.roster_id m ≠ Roster.roster_id roster) →
  Ranker.find_matchup matchups roster = None.
Proof.
  unfold Ranker.find_matchup. induction matchups as [|m ms IH]; intros H; [done|].
  simpl. destruct (Z.eqb_spec (Matchup.roster_id m) (Roster.roster_id roster)) as [He|_].
  - destruct (H m); [left|done].
  - apply IH. intros m' Hm'. apply H. by right.
Qed.

Lemma find_matchup_first (pre post : list Matchup.t) (m : Matchup.t)
    (roster : Roster.t) :
  (∀ m', m' ∈ pre → Matchup.roster_id m' ≠ Roster.roster_id roster) →
  Matchup.roster_id m = Roster.roster_id roster →
  Ranker.find_matchup (pre ++ m :: post) roster = Some m.
Proof.
  unfold Ranker.find_matchup. intros Hpre Hm.
  induction pre as [|m' pre IH]; simpl.
  - by rewrite Hm, Z.eqb_refl.
  - destruct (Z.eqb_spec (Matchup.roster_id m') (Roster.roster_id roster)) as [He|_].
    + destruct (Hpre m'); [left|done].
    + apply IH. intros m'' Hm''. apply Hpre. by right.
Qed.

(** ** Runs on the concrete leagues *)

(** The three-team league: every team is exported, in ascending order of
    projected points. *)
Example scenario_run :
  Ranker.active_teams Scenario.users Scenario.rosters Scenario.matchups
    Scenario.weekly_projections
  = [Scenario.teamC; Scenario.teamA; Scenario.teamB].
Proof. vm_compute; reflexivity. Qed.

(** With the eliminated roster D and the rosters F and E, which tie with C:
    D is dropped and F, E, C stay in the order of their rosters. *)
Example tie_run :
  Ranker.active_teams Scenario.users
    ([Scenario.rosterD; Scenario.rosterF; Scenario.rosterE] ++ Scenario.rosters)
    Scenario.tie_matchups Scenario.weekly_projections
  = [Scenario.teamF; Scenario.teamE; Scenario.teamC; Scenario.teamA;
     Scenario.teamB].
Proof. vm_compute; reflexivity. Qed.

(** The accessor on the sample body: the later record of player 4046
    replaces the earlier under the key that was inserted first, and the
    record without identifier is discarded. *)
Example accessor_run :
  Accessor.get_weekly_projections
    (Accessor.Response 200 (Some (JArr Scenario.body)))
  = [(JStr "4046", Scenario.entry (Some "4046") 19%Q);
     (JStr "96", Scenario.entry (Some "96") 17%Q)].
Proof. vm_compute; reflexivity. Qed.

(** A record whose [stats] is [null] makes the sampling loop raise, and the
    dict built so far is dropped with the exception. *)
Example accessor_null_stats_run :
  Accessor.try_block
    (Accessor.Response 200 (Some (JArr Scenario.body_null_stats)))
  = Raise TypeError.
Proof. vm_compute; reflexivity. Qed.

(** ** The ranking rules, proved *)

(** *** The sums of points, for any numbers *)

Section JoinFacts.
Context {num : Type} `{Number num}.

(** The [i]-th team is the summary of the [i]-th roster. *)
Lemma join_teams_data_lookup users rosters (matchups : list (NumMatchup.t num))
    weekly_projections i team :
  Join.teams_data users rosters matchups weekly_projections !! i = Some team ↔
  ∃ roster, rosters !! i = Some roster ∧
    team = Join.team_summary (Ranker.user_lookup users) matchups
             weekly_projections roster.
Proof.
  unfold Join.teams_data. revert i.
  induction rosters as [|r rs IH]; intros [|i]; simpl.
  - split; [done|]. by intros (? & ? & _).
  - split; [done|]. by intros (? & ? & _).
  - split; [intros [= <-]; eauto|]. intros (r' & Hr & ->). by injection Hr as ->.
  - apply IH.
Qed.

Lemma sum_first_app (n : nat) (l l' : list num) :
  (n ≤ length l)%nat → Join.sum_first n (l ++ l') = Join.sum_first n l.
Proof.
  induction n as [|n IH]; intros Hn; simpl; [done|].
  rewrite IH by lia. by rewrite app_nth1 by lia.
Qed.

Lemma left_sum_snoc (l : list num) (x : num) :
  Join.left_sum (l ++ [x]) = py_add (Join.left_sum l) x.
Proof.
  unfold Join.left_sum. rewrite length_app, Nat.add_1_r. simpl.
  rewrite sum_first_app by lia.
  by rewrite app_nth2, Nat.sub_diag by lia.
Qed.

(** The loop of [sum] and of [+=] adds from the left. *)
Lemma fold_add_left_sum (l : list num) :
  fold_left py_add l py_zero = Join.left_sum l.
Proof.
  induction l as [|x l IH] using rev_ind; [done|].
  by rewrite fold_left_app, left_sum_snoc, IH.
Qed.

(** The chain of [or] is the first value that counts as true, else the
    last. *)
Lemma join_player_proj_value (stats : gmap string num) :
  Join.player_proj stats = Join.player_value stats.
Proof.
  unfold Join.player_proj, Join.player_value, Join.py_or, Join.stats_get.
  simpl.
  destruct (py_bool (default py_zero (stats !! "pts_ppr"))); [done|].
  destruct (py_bool (default py_zero (stats !! "fantasy_points_ppr")));
    [done|].
  by destruct (py_bool (default py_zero (stats !! "projected_points"))).
Qed.

(** The first loop adds, from the left, the projections of the starters who
    have a record. *)
Lemma join_fold_add_starter weekly_projections (starters : list (option string))
    (acc : num) :
  fold_left (Join.add_starter weekly_projections) starters acc =
  fold_left py_add (Join.starter_projections weekly_projections starters) acc.
Proof.
  revert acc. induction starters as [|slot starters IH]; intros acc; [done|].
  simpl. rewrite IH. unfold Join.starter_projections at 2. simpl.
  destruct slot as [pid|]; simpl; [|done].
  destruct (decide (pid = "")) as [->|Hne]; simpl; [done|].
  apply String.eqb_neq in Hne as ->. simpl.
  destruct (weekly_projections !! pid) as [record|]; simpl; [|done].
  by rewrite join_player_proj_value.
Qed.

Lemma starter_projections_no_records
    (weekly_projections : gmap string (NumProjection.t num))
    (starters : list (option string)) :
  size weekly_projections = 0%nat →
  Join.starter_projections weekly_projections starters = [].
Proof.
  intros ->%map_size_empty_inv.
  induction starters as [|slot starters IH]; [done|].
  unfold Join.starter_projections in *. simpl in *.
  destruct slot as [pid|]; simpl; [|done].
  destruct (decide (pid = "")); [done|]. by rewrite lookup_empty.
Qed.

Lemma join_weekly_projected weekly_projections (starters : list (option string)) :
  Join.weekly_projected weekly_projections starters =
  Join.left_sum (Join.starter_projections weekly_projections starters).
Proof.
  unfold Join.weekly_projected, dict_truthy.
  destruct (Nat.eqb_spec (size weekly_projections) 0) as [H0|_]; simpl.
  - by rewrite starter_projections_no_records.
  - by rewrite join_fold_add_starter, fold_add_left_sum.
Qed.



Lemma join_insert_by_key_elem_of {A} (key : A → num) (x y : A) (l : list A) :
  y ∈ Join.insert_by_key key x l ↔ y = x ∨ y ∈ l.
Proof.
  induction l as [|z l IH]; simpl.
  - set_solver.
  - destruct (py_lt (key z) (key x)); rewrite ?elem_of_cons, ?IH; tauto.
Qed.

Lemma join_sort_by_key_elem_of {A} (key : A → num) (y : A) (l : list A) :
  y ∈ Join.sort_by_key key l ↔ y ∈ l.
Proof.
  induction l as [|x l IH]; simpl; [done|].
  rewrite join_insert_by_key_elem_of, IH, elem_of_cons. tauto.
Qed.

(** C1. For every team, projected points is the sum of the weekly
    projections of the team's starters, added from the left as the program
    adds them, when that sum is strictly greater than zero, and the team's
    current points otherwise; in particular it is the current points when
    the sum is 0.  This holds whatever the numbers and their arithmetic
    are. *)
Theorem projected_points_rule users rosters (matchups : list (NumMatchup.t num))
    weekly_projections i team :
  Join.teams_data users rosters matchups weekly_projections !! i = Some team →
  ∃ roster, rosters !! i = Some roster ∧
    let total :=
      Join.left_sum
        (Join.starter_projections weekly_projections (Ranker.starters roster)) in
    (py_gt total py_zero = true → NumTeam.projected_points team = total) ∧
    (py_gt total py_zero = false →
     NumTeam.projected_points team = NumTeam.current_points team) ∧
    (py_gt py_zero py_zero = false → total = py_zero →
     NumTeam.projected_points team = NumTeam.current_points team).
Proof.
  intros (roster & Hroster & ->)%join_teams_data_lookup.
  exists roster. split; [done|]. simpl.
  rewrite join_weekly_projected. unfold Join.projected_points.
  split; [by intros ->|]. split; [by intros ->|].
  intros H0 ->. by rewrite H0.
Qed.


End JoinFacts.

(** The float league: the projections of roster 1 sum to 0.0 from the
    left, so its team falls back to the 10 it has scored; those of roster 2
    sum to 2^-54, which is more than zero and is its projected points. *)
Lemma projected_points_rule_witness :
  (NumTeam.projected_points FloatLeague.big_team
   = NumTeam.current_points FloatLeague.big_team) ∧
  NumTeam.projected_points FloatLeague.big_team = 10%float ∧
  NumTeam.projected_points FloatLeague.small_team
  = 5.551115123125783e-17%float.
Proof.
  destruct (projected_points_rule [] FloatLeague.rosters FloatLeague.matchups
              FloatLeague.weekly_projections 0%nat FloatLeague.big_team)
    as (roster & Hroster & _ & Hfall & _); [vm_compute; reflexivity|].
  injection Hroster as <-.
  destruct (projected_points_rule [] FloatLeague.rosters FloatLeague.matchups
              FloatLeague.weekly_projections 1%nat FloatLeague.small_team)
    as (roster & Hroster & Hsum & _); [vm_compute; reflexivity|].
  injection Hroster as <-.
  split; [apply Hfall; vm_compute; reflexivity|].
  split; [rewrite Hfall by (vm_compute; reflexivity); reflexivity|].
  rewrite Hsum by (vm_compute; reflexivity). vm_compute. reflexivity.
Defined.


(** C3. No team whose final projected points equals 0 appears in the
    exported list, whatever the rosters, users, matchups and projections. *)
Theorem zero_projection_excluded users rosters matchups weekly_projections team :
  (Team.projected_points team == 0)%Q →
  team ∉ Ranker.active_teams users rosters matchups weekly_projections.
Proof.
  intros H0 [_ Hact]%active_teams_elem_of.
  apply Qgtb_true in Hact. rewrite H0 in Hact. by apply Qlt_irrefl in Hact.
Qed.

(** The eliminated team D is produced by the join and is not exported. *)
Lemma zero_projection_excluded_witness :
  (Team.projected_points Scenario.teamD == 0)%Q ∧
  Scenario.teamD ∈ Ranker.teams_data Scenario.users
    (Scenario.rosters ++ [Scenario.rosterD]) Scenario.matchups
    Scenario.weekly_projections ∧
  Scenario.teamD ∉ Ranker.active_teams Scenario.users
    (Scenario.rosters ++ [Scenario.rosterD]) Scenario.matchups
    Scenario.weekly_projections.
Proof.
  split; [reflexivity|]. split.
  - apply list_elem_of_lookup. exists 3%nat. vm_compute; reflexivity.
  - apply zero_projection_excluded. reflexivity.
Defined.

(** C5. The exported list is sorted non-decreasingly by projected points:
    of two consecutive entries the earlier has at most the projected points
    of the later. *)
Theorem exported_sorted users rosters matchups weekly_projections i a b :
  Ranker.active_teams users rosters matchups weekly_projections !! i = Some a →
  Ranker.active_teams users rosters matchups weekly_projections !! S i = Some b →
  (Team.projected_points a <= Team.projected_points b)%Q.
Proof.
  apply (sorted_neighbours Team.projected_points), sort_by_key_sorted.
Qed.

(** Teams A and B are neighbours in the export of the three-team league. *)
Lemma exported_sorted_witness :
  Ranker.active_teams Scenario.users Scenario.rosters Scenario.matchups
    Scenario.weekly_projections !! 1%nat = Some Scenario.teamA ∧
  Ranker.active_teams Scenario.users Scenario.rosters Scenario.matchups
    Scenario.weekly_projections !! 2%nat = Some Scenario.teamB ∧
  (Team.projected_points Scenario.teamA <=
   Team.projected_points Scenario.teamB)%Q.
Proof.
  split; [vm_compute; reflexivity|]. split; [vm_compute; reflexivity|].
  apply (exported_sorted Scenario.users Scenario.rosters Scenario.matchups
           Scenario.weekly_projections 1%nat);
    vm_compute; reflexivity.
Defined.

(** C9. Every team in the exported list has projected points strictly
    greater than zero; a team with negative projected points is excluded as
    a team with projected points 0 is. *)
Theorem exported_projection_positive users rosters matchups weekly_projections
    team :
  (team ∈ Ranker.active_teams users rosters matchups weekly_projections →
   (0 < Team.projected_points team)%Q) ∧
  ((Team.projected_points team < 0)%Q →
   team ∉ Ranker.active_teams users rosters matchups weekly_projections).
Proof.
  assert (team ∈ Ranker.active_teams users rosters matchups weekly_projections →
          (0 < Team.projected_points team)%Q) as Hpos.
  { intros [_ Hact]%active_teams_elem_of. by apply Qgtb_true in Hact. }
  split; [done|]. intros Hneg Hin%Hpos.
  apply (Qlt_irrefl 0). by apply Qlt_trans with (Team.projected_points team).
Qed.

(** Team C is exported with positive projected points; the team that
    scored [-2] is not exported. *)
Lemma exported_projection_positive_witness :
  (0 < Team.projected_points Scenario.teamC)%Q ∧
  Team.mk "Team 7" 7 (-2) (-2) 1 0 ∉
    Ranker.active_teams [] [Scenario.losing_roster] Scenario.losing_matchups ∅.
Proof.
  split.
  - apply (exported_projection_positive Scenario.users Scenario.rosters
             Scenario.matchups Scenario.weekly_projections Scenario.teamC).
    apply list_elem_of_lookup. exists 0%nat. vm_compute; reflexivity.
  - apply exported_projection_positive. reflexivity.
Defined.

(** C10. The sort is stable: of two rosters whose teams pass the filter with
    equal projected points, the team of the earlier roster comes earlier in
    the exported list. *)
Theorem sort_stable users rosters matchups weekly_projections i j ra rb :
  let summary :=
    Ranker.team_summary (Ranker.user_lookup users) matchups weekly_projections in
  rosters !! i = Some ra → rosters !! j = Some rb → (i < j)%nat →
  Ranker.is_active (summary ra) = true →
  Ranker.is_active (summary rb) = true →
  (Team.projected_points (summary ra) == Team.projected_points (summary rb))%Q →
  ∃ i' j', (i' < j')%nat ∧
    Ranker.active_teams users rosters matchups weekly_projections !! i'
      = Some (summary ra) ∧
    Ranker.active_teams users rosters matchups weekly_projections !! j'
      = Some (summary rb).
Proof.
  intros summary Hi Hj Hlt Ha Hb Heq.
  set (q := Team.projected_points (summary rb)).
  assert (Ranker.teams_data users rosters matchups weekly_projections !! i
          = Some (summary ra)) as Hti by (apply teams_data_lookup; eauto).
  assert (Ranker.teams_data users rosters matchups weekly_projections !! j
          = Some (summary rb)) as Htj by (apply teams_data_lookup; eauto).
  destruct (filter_keeps_order Ranker.is_active _ i j _ _ Hti Htj Hlt Ha Hb)
    as (i1 & j1 & Hlt1 & Hi1 & Hj1).
  destruct (filter_keeps_order (has_key Team.projected_points q) _ i1 j1 _ _
              Hi1 Hj1 Hlt1) as (i2 & j2 & Hlt2 & Hi2 & Hj2).
  { by apply Qeq_bool_iff. }
  { by apply Qeq_bool_iff. }
  rewrite <- (sort_by_key_filter Team.projected_points) in Hi2, Hj2.
  apply (filter_reflects_order _ _ _ _ _ _ Hi2 Hj2 Hlt2).
Qed.

(** Roster F comes before roster C and their teams tie at 22: F is exported
    before C. *)
Lemma sort_stable_witness :
  ∃ i' j', (i' < j')%nat ∧
    Ranker.active_teams Scenario.users
      ([Scenario.rosterF; Scenario.rosterE] ++ Scenario.rosters)
      Scenario.tie_matchups Scenario.weekly_projections !! i'
      = Some Scenario.teamF ∧
    Ranker.active_teams Scenario.users
      ([Scenario.rosterF; Scenario.rosterE] ++ Scenario.rosters)
      Scenario.tie_matchups Scenario.weekly_projections !! j'
      = Some Scenario.teamC.
Proof.
  apply (sort_stable Scenario.users
           ([Scenario.rosterF; Scenario.rosterE] ++ Scenario.rosters)
           Scenario.tie_matchups Scenario.weekly_projections
           0%nat 4%nat Scenario.rosterF Scenario.rosterC);
    first [lia | vm_compute; reflexivity].
Defined.







(** ** The projection of one player, proved *)

Lemma py_or_truthy (a b : Q) : ¬ (a == 0)%Q → py_or a b = a.
Proof. intros H%num_truthy_true. unfold py_or. by rewrite H. Qed.

Lemma py_or_falsy (a b : Q) : (a == 0)%Q → py_or a b = b.
Proof. intros H%num_truthy_false. unfold py_or. by rewrite H. Qed.

Lemma stats_get_zero_or_absent (stats : gmap string Q) (k : string) :
  Spec.zero_or_absent (stats !! k) → (Ranker.stats_get stats k == 0)%Q.
Proof. unfold Ranker.stats_get. by destruct (stats !! k). Qed.

Lemma stats_get_present (stats : gmap string Q) (k : string) (v : Q) :
  stats !! k = Some v → Ranker.stats_get stats k = v.
Proof. unfold Ranker.stats_get. by intros ->. Qed.

(** C6. For every starter whose player id has a projection record, the
    loop adds the player's projected value, which is the first value that is
    not zero among the fields [pts_ppr], [fantasy_points_ppr],
    [projected_points], [pts_std] of the record's stats, in this order; when
    every one of the four is absent or zero the value is zero. *)
Theorem player_projection_priority weekly_projections pid record acc :
  pid ≠ "" → weekly_projections !! pid = Some record →
  let stats := default ∅ (Projection.stats record) in
  let value := Ranker.player_proj stats in
  Ranker.add_starter weekly_projections acc (Some pid) = (acc + value)%Q ∧
  (∀ v, stats !! "pts_ppr" = Some v → ¬ (v == 0)%Q → value = v) ∧
  (∀ v, Spec.zero_or_absent (stats !! "pts_ppr") →
        stats !! "fantasy_points_ppr" = Some v → ¬ (v == 0)%Q → value = v) ∧
  (∀ v, Spec.zero_or_absent (stats !! "pts_ppr") →
        Spec.zero_or_absent (stats !! "fantasy_points_ppr") →
        stats !! "projected_points" = Some v → ¬ (v == 0)%Q → value = v) ∧
  (∀ v, Spec.zero_or_absent (stats !! "pts_ppr") →
        Spec.zero_or_absent (stats !! "fantasy_points_ppr") →
        Spec.zero_or_absent (stats !! "projected_points") →
        stats !! "pts_std" = Some v → ¬ (v == 0)%Q → value = v) ∧
  (Spec.zero_or_absent (stats !! "pts_ppr") →
   Spec.zero_or_absent (stats !! "fantasy_points_ppr") →
   Spec.zero_or_absent (stats !! "projected_points") →
   Spec.zero_or_absent (stats !! "pts_std") →
   (value == 0)%Q).
Proof.
  intros Hpid Hrecord stats value. split.
  { unfold Ranker.add_starter. simpl.
    apply String.eqb_neq in Hpid as ->. simpl. by rewrite Hrecord. }
  subst value. unfold Ranker.player_proj.
  split; [|split; [|split; [|split]]].
  - intros v Hv Hnz. rewrite (stats_get_present _ _ _ Hv). by apply py_or_truthy.
  - intros v H1%stats_get_zero_or_absent Hv Hnz.
    rewrite (py_or_falsy _ _ H1), (stats_get_present _ _ _ Hv).
    by apply py_or_truthy.
  - intros v H1%stats_get_zero_or_absent H2%stats_get_zero_or_absent Hv Hnz.
    rewrite (py_or_falsy _ _ H1), (py_or_falsy _ _ H2),
      (stats_get_present _ _ _ Hv).
    by apply py_or_truthy.
  - intros v H1%stats_get_zero_or_absent H2%stats_get_zero_or_absent
      H3%stats_get_zero_or_absent Hv Hnz.
    by rewrite (py_or_falsy _ _ H1), (py_or_falsy _ _ H2), (py_or_falsy _ _ H3),
      (stats_get_present _ _ _ Hv).
  - intros H1%stats_get_zero_or_absent H2%stats_get_zero_or_absent
      H3%stats_get_zero_or_absent H4%stats_get_zero_or_absent.
    by rewrite (py_or_falsy _ _ H1), (py_or_falsy _ _ H2), (py_or_falsy _ _ H3).
Qed.

(** A record whose [pts_ppr] is 0 and whose [fantasy_points_ppr] is absent
    contributes its [projected_points]. *)
Lemma player_projection_priority_witness :
  "p1" ≠ "" ∧ Scenario.alias_projections !! "p1" = Some Scenario.alias_record ∧
  Ranker.add_starter Scenario.alias_projections 3 (Some "p1")
    = (3 + Ranker.player_proj Scenario.alias_stats)%Q ∧
  Ranker.player_proj Scenario.alias_stats = (25 # 2)%Q.
Proof.
  assert ("p1" ≠ "") as Hpid by done.
  assert (Scenario.alias_projections !! "p1" = Some Scenario.alias_record)
    as Hrecord by (vm_compute; reflexivity).
  destruct (player_projection_priority Scenario.alias_projections "p1"
              Scenario.alias_record 3 Hpid Hrecord)
    as (Hadd & _ & _ & Hthird & _).
  split; [exact Hpid|]. split; [exact Hrecord|]. split; [exact Hadd|].
  apply (Hthird (25 # 2)%Q).
  - vm_compute; reflexivity.
  - vm_compute; exact I.
  - vm_compute; reflexivity.
  - vm_compute; discriminate.
Defined.

(** ** Facts about the dict of the accessor *)

Lemma key_eqb_sym (k1 k2 : json) :
  Accessor.key_eqb k1 k2 = true → Accessor.key_eqb k2 k1 = true.
Proof.
  destruct k1 as [|[]| | | |], k2 as [|[]| | | |];
    simpl; try done; try apply Qeq_bool_sym.
  rewrite !String.eqb_eq. done.
Qed.

Lemma key_eqb_trans (k1 k2 k3 : json) :
  Accessor.key_eqb k1 k2 = true → Accessor.key_eqb k2 k3 = true →
  Accessor.key_eqb k1 k3 = true.
Proof.
  destruct k1 as [|[]| | | |], k2 as [|[]| | | |], k3 as [|[]| | | |];
    simpl; try done; try apply Qeq_bool_trans.
  rewrite !String.eqb_eq. congruence.
Qed.

(** Reading after a store. *)
Lemma dict_get_store (d : Accessor.pydict) (k v k' : json) :
  Accessor.dict_get (Accessor.dict_store d k v) k' =
  if Accessor.key_eqb k k' then Some v else Accessor.dict_get d k'.
Proof.
  induction d as [|[k0 v0] d IH]; simpl; [done|].
  destruct (Accessor.key_eqb k0 k) eqn:H0; simpl.
  - destruct (Accessor.key_eqb k k') eqn:H1.
    + by rewrite (key_eqb_trans _ _ _ H0 H1).
    + destruct (Accessor.key_eqb k0 k') eqn:H2; [|done].
      by rewrite (key_eqb_trans _ _ _ (key_eqb_sym _ _ H0) H2) in H1.
  - rewrite IH. destruct (Accessor.key_eqb k0 k') eqn:H2; [|done].
    destruct (Accessor.key_eqb k k') eqn:H1; [|done].
    by rewrite (key_eqb_trans _ _ _ H2 (key_eqb_sym _ _ H1)) in H0.
Qed.

(** ** Facts about the loops of the accessor on the provider's records *)

Lemma find_snoc {A} (P : A → bool) (l : list A) (x : A) :
  List.find P (l ++ [x]) =
  match List.find P l with
  | Some y => Some y
  | None => if P x then Some x else None
  end.
Proof.
  induction l as [|y l IH]; simpl; [done|]. by destruct (P y).
Qed.

Lemma rekey_step_provider (d : Accessor.pydict) (player_data : json) :
  Accessor.provider_entry player_data = true →
  Accessor.rekey_step d player_data =
  Ok (match Accessor.entry_player_id player_data with
      | Some player_id => Accessor.dict_store d player_id player_data
      | None => d
      end).
Proof.
  destruct player_data as [| | | | |fields]; try done.
  unfold Accessor.provider_entry, Accessor.rekey_step, Accessor.entry_player_id.
  run_bind.
  destruct (Accessor.field "player_id" fields) as [player_id|]; simpl;
    [|done].
  unfold Accessor.dict_set.
  destruct player_id; simpl; rewrite ?andb_true_r, ?andb_false_r; try done;
    by intros [[-> _]%andb_prop _]%andb_prop.
Qed.

Lemma rekey_loop_provider (data : list json) (d : Accessor.pydict) :
  Forall (λ player_data, Accessor.provider_entry player_data = true) data →
  ∃ d', Accessor.rekey_loop data d = Ok d' ∧
    ∀ k, Accessor.dict_get d' k =
         match Accessor.spec_rekeyed data k with
         | Some player_data => Some player_data
         | None => Accessor.dict_get d k
         end.
Proof.
  intros Hdata. revert d.
  induction Hdata as [|player_data data Hentry _ IH]; intros d.
  - by exists d.
  - simpl. rewrite (rekey_step_provider _ _ Hentry). run_bind.
    destruct (IH (match Accessor.entry_player_id player_data with
                  | Some player_id => Accessor.dict_store d player_id player_data
                  | None => d
                  end)) as (d' & -> & Hget).
    exists d'. split; [done|]. intros k. rewrite Hget.
    unfold Accessor.spec_rekeyed. simpl. rewrite find_snoc.
    destruct (List.find _ (rev data)); [done|].
    destruct (Accessor.entry_player_id player_data) as [player_id|]; [|done].
    rewrite dict_get_store. by destruct (Accessor.key_eqb player_id k).
Qed.

Lemma any_key_in_object (keys : list string) (fields : list (string * json)) :
  ∃ hit, Accessor.any_key_in keys (JObj fields) = Ok hit.
Proof.
  induction keys as [|key keys [hit IH]]; simpl; [by eexists|]. run_bind.
  destruct (bool_decide _); by eexists.
Qed.

Lemma sample_loop_object (fields stats_fields : list (string * json))
    (hit : bool) (data acc : list json) :
  default (JObj []) (Accessor.field "stats" fields) = JObj stats_fields →
  Accessor.any_key_in Accessor.projection_keys (JObj stats_fields) = Ok hit →
  Accessor.sample_loop (JObj fields :: data) acc =
  if hit then
    if (3 <=? length (acc ++ [JObj fields]))%nat
    then Ok (acc ++ [JObj fields])
    else Accessor.sample_loop data (acc ++ [JObj fields])
  else Accessor.sample_loop data acc.
Proof.
  intros Hstats Hany.
  change (Accessor.sample_loop (JObj fields :: data) acc) with
    (result_bind _ _
       (λ hit : bool,
          if hit then
            if (3 <=? length (acc ++ [JObj fields]))%nat
            then Ok (acc ++ [JObj fields])
            else Accessor.sample_loop data (acc ++ [JObj fields])
          else Accessor.sample_loop data acc)
       (Accessor.any_key_in Accessor.projection_keys
          (default (JObj []) (Accessor.field "stats" fields)))).
  by rewrite Hstats, Hany.
Qed.

Lemma sample_loop_provider (data acc : list json) :
  Forall (λ player_data, Accessor.provider_entry player_data = true) data →
  Forall (λ player_data, Accessor.provider_entry player_data = true) acc →
  ∃ out, Accessor.sample_loop data acc = Ok out ∧
    Forall (λ player_data, Accessor.provider_entry player_data = true) out.
Proof.
  intros Hdata. revert acc.
  induction Hdata as [|player_data data Hentry _ IH]; intros acc Hacc.
  - by exists acc.
  - pose proof Hentry as Hshape.
    destruct player_data as [| | | | |fields]; try done.
    unfold Accessor.provider_entry in Hshape.
    apply andb_prop in Hshape as [[_ Hstats]%andb_prop _].
    assert (∃ stats_fields,
              default (JObj []) (Accessor.field "stats" fields)
              = JObj stats_fields) as [stats_fields Hfields].
    { destruct (Accessor.field "stats" fields) as [[| | | | |f]|];
        try done; by eexists. }
    destruct (any_key_in_object Accessor.projection_keys stats_fields)
      as [hit Hhit].
    rewrite (sample_loop_object _ _ _ _ _ Hfields Hhit).
    destruct hit; [|by apply IH].
    destruct (3 <=? length (acc ++ [JObj fields]))%nat.
    + eexists. split; [done|]. apply Forall_app. by repeat constructor.
    + apply IH. apply Forall_app. by repeat constructor.
Qed.

Lemma print_loop_provider (players : list json) :
  Forall (λ player_data, Accessor.provider_entry player_data = true) players →
  Accessor.print_loop players = Ok ().
Proof.
  induction 1 as [|player_data players Hentry _ IH]; simpl; [done|].
  destruct player_data as [| | | | |fields]; try done.
  unfold Accessor.provider_entry in Hentry.
  apply andb_prop in Hentry as [_ Hplayer].
  unfold Accessor.print_sample. run_bind.
  destruct (Accessor.field "player" fields) as [[| | | | |f]|]; try done.
Qed.

(** ** The contract of the accessor, proved *)

(** On a list of the provider's records no statement of the [try] block
    raises, and the dict holds under each key the last record with it. *)
Lemma provider_list_try_block (data : list json) :
  forallb Accessor.provider_entry data = true →
  ∃ d, Accessor.try_block (Accessor.Response 200 (Some (JArr data)))
       = Ok (Some d) ∧
    ∀ k, Accessor.dict_get d k = Accessor.spec_rekeyed data k.
Proof.
  intros Hdata.
  assert (Forall (λ player_data, Accessor.provider_entry player_data = true)
            data) as Hall.
  { apply Forall_forall. intros x Hx%list_elem_of_In.
    by apply (proj1 (forallb_forall _ _) Hdata). }
  destruct (rekey_loop_provider data [] Hall) as (d & Hloop & Hget).
  destruct (sample_loop_provider (take 50 data) [])
    as (players & Hsample & Hplayers); [by apply Forall_take|done|].
  exists d. split.
  - unfold Accessor.try_block. run_bind. rewrite Hloop, Hsample. simpl.
    rewrite (print_loop_provider _ Hplayers). by destruct players.
  - intros k. rewrite Hget. by destruct (Accessor.spec_rekeyed data k).
Qed.

(** ** More about the join: names, starters, projections *)

(** The lookup holds, for an id, the last user of the list with that id. *)
Lemma user_lookup_fold (users : list User.t) (m : gmap string User.t)
    (uid : string) :
  fold_left (λ m u, <[User.user_id u := u]> m) users m !! uid =
  match List.find (λ u, String.eqb (User.user_id u) uid) (rev users) with
  | Some u => Some u
  | None => m !! uid
  end.
Proof.
  revert m. induction users as [|u users IH]; intros m; simpl; [done|].
  rewrite IH, find_snoc.
  destruct (List.find _ (rev users)); [done|].
  rewrite lookup_insert.
  destruct (String.eqb_spec (User.user_id u) uid) as [->|Hne].
  - by rewrite decide_True.
  - by rewrite decide_False.
Qed.

Lemma find_last_none {A} (P : A → bool) (l : list A) :
  (∀ x, x ∈ l → P x = false) → List.find P (rev l) = None.
Proof.
  intros H. destruct (List.find P (rev l)) as [x|] eqn:Hx; [|done].
  apply find_some in Hx as [Hin Hp].
  apply in_rev, list_elem_of_In, H in Hin. congruence.
Qed.

Lemma find_skip {A} (P : A → bool) (l1 l2 : list A) :
  (∀ y, y ∈ l1 → P y = false) → List.find P (l1 ++ l2) = List.find P l2.
Proof.
  induction l1 as [|y l1 IH]; intros H; simpl; [done|].
  rewrite (H y) by left. apply IH. intros z Hz. apply H. by right.
Qed.

Lemma find_last_split {A} (P : A → bool) (pre post : list A) (x : A) :
  P x = true → (∀ y, y ∈ post → P y = false) →
  List.find P (rev (pre ++ x :: post)) = Some x.
Proof.
  intros Hx Hpost. rewrite rev_app_distr. simpl. rewrite <- app_assoc.
  rewrite find_skip; [simpl; by rewrite Hx|].
  intros y Hy. by apply Hpost, list_elem_of_In, in_rev, list_elem_of_In.
Qed.

(** X1. The name of a team is ["Team <roster_id>"] when the roster has no
    owner, when no user has the owner's id, and when the owner has no
    display name; otherwise it is the display name of the last user of the
    list with the owner's id. *)
Theorem team_name_rule users rosters matchups weekly_projections i team :
  Ranker.teams_data users rosters matchups weekly_projections !! i = Some team →
  ∃ roster, rosters !! i = Some roster ∧
    let fallback := "Team " +:+ pretty (Roster.roster_id roster) in
    (Roster.owner_id roster = None → Team.team_name team = fallback) ∧
    (∀ uid, Roster.owner_id roster = Some uid →
       (∀ u, u ∈ users → User.user_id u ≠ uid) →
       Team.team_name team = fallback) ∧
    (∀ uid pre u post,
       Roster.owner_id roster = Some uid →
       users = pre ++ u :: post → User.user_id u = uid →
       (∀ u', u' ∈ post → User.user_id u' ≠ uid) →
       Team.team_name team = default fallback (User.display_name u)).
Proof.
  intros (roster & Hroster & ->)%teams_data_lookup.
  exists roster. split; [done|]. simpl. unfold Ranker.team_name.
  split; [|split].
  - by intros ->.
  - intros uid -> Hnone. simpl. unfold Ranker.user_lookup.
    rewrite user_lookup_fold, find_last_none, lookup_empty; [done|].
    intros u Hu. by apply String.eqb_neq, Hnone.
  - intros uid pre u post -> -> Hu Hpost. simpl. unfold Ranker.user_lookup.
    rewrite user_lookup_fold, (find_last_split _ pre post u); [done|..].
    + by apply String.eqb_eq.
    + intros u' Hu'. by apply String.eqb_neq, Hpost.
Qed.

(** The renamed owner of the first roster, and the owner without display
    name of the second. *)
Lemma team_name_rule_witness :
  Team.team_name Fixture.owned_team = "New name" ∧
  Team.team_name Fixture.unnamed_team = "Team 12".
Proof.
  split.
  - destruct (team_name_rule Fixture.users Fixture.rosters Fixture.matchups
                Fixture.weekly_projections 0%nat Fixture.owned_team)
      as (roster & Hroster & _ & _ & Hlast); [vm_compute; reflexivity|].
    injection Hroster as <-.
    apply (Hlast "u1" [User.mk "u1" (Some "Old name"); User.mk "u2" None]
             (User.mk "u1" (Some "New name")) []); try reflexivity.
    intros u' Hu'. by apply elem_of_nil in Hu'.
  - destruct (team_name_rule Fixture.users Fixture.rosters Fixture.matchups
                Fixture.weekly_projections 1%nat Fixture.unnamed_team)
      as (roster & Hroster & _ & _ & Hlast); [vm_compute; reflexivity|].
    injection Hroster as <-.
    apply (Hlast "u2" [User.mk "u1" (Some "Old name")] (User.mk "u2" None)
             [User.mk "u1" (Some "New name")]); try reflexivity.
    intros u' ->%list_elem_of_singleton. discriminate.
Defined.

(** The second loop counts at most the filled slots it goes through. *)
Lemma count_played_bound (players_points : gmap string Q)
    (starters : list (option string)) (acc : nat) :
  (fold_left (Ranker.count_played players_points) starters acc
   ≤ acc + length (List.filter slot_truthy starters))%nat.
Proof.
  revert acc. induction starters as [|slot starters IH]; intros acc; simpl.
  - lia.
  - etransitivity; [apply IH|].
    destruct slot as [pid|]; simpl; [|lia].
    destruct (negb (String.eqb pid "")); simpl; [|lia].
    destruct (Qgtb _ 0); lia.
Qed.

(** X2. For every team, the starters counted as played are at most the
    filled starter slots, which are at most the slots of the roster. *)
Theorem starters_counts users rosters matchups weekly_projections i team :
  Ranker.teams_data users rosters matchups weekly_projections !! i = Some team →
  ∃ roster, rosters !! i = Some roster ∧
    (Team.starters_played team ≤ Team.starters_total team)%nat ∧
    (Team.starters_total team ≤ length (Ranker.starters roster))%nat.
Proof.
  intros (roster & Hroster & ->)%teams_data_lookup.
  exists roster. split; [done|]. simpl. split.
  - apply (count_played_bound _ _ 0).
  - apply filter_length_le.
Qed.

(** The first roster of the fixture: four slots, two filled, two played. *)
Lemma starters_counts_witness :
  ∃ roster, Fixture.rosters !! 0%nat = Some roster ∧
    (Team.starters_played Fixture.owned_team
     ≤ Team.starters_total Fixture.owned_team)%nat ∧
    (Team.starters_total Fixture.owned_team
     ≤ length (Ranker.starters roster))%nat.
Proof.
  apply (starters_counts Fixture.users Fixture.rosters Fixture.matchups
           Fixture.weekly_projections 0%nat Fixture.owned_team).
  vm_compute; reflexivity.
Defined.

(** The loops skip the empty slots. *)
Lemma add_starter_filter (weekly_projections : gmap string Projection.t)
    (starters : list (option string)) (acc : Q) :
  fold_left (Ranker.add_starter weekly_projections) starters acc =
  fold_left (Ranker.add_starter weekly_projections)
            (List.filter slot_truthy starters) acc.
Proof.
  revert acc. induction starters as [|slot starters IH]; intros acc; [done|].
  simpl. destruct slot as [pid|]; simpl; [|apply IH].
  destruct (negb (String.eqb pid "")) eqn:Hpid; simpl; [|apply IH].
  rewrite Hpid. apply IH.
Qed.

Lemma count_played_filter (players_points : gmap string Q)
    (starters : list (option string)) (acc : nat) :
  fold_left (Ranker.count_played players_points) starters acc =
  fold_left (Ranker.count_played players_points)
            (List.filter slot_truthy starters) acc.
Proof.
  revert acc. induction starters as [|slot starters IH]; intros acc; [done|].
  simpl. destruct slot as [pid|]; simpl; [|apply IH].
  destruct (negb (String.eqb pid "")) eqn:Hpid; simpl; [|apply IH].
  rewrite Hpid. apply IH.
Qed.

(** X3. Empty starter slots, [null] or the empty id, never change a team's
    summary: two rosters with the same id, the same owner and the same
    filled slots in the same order get the same entry of [teams_data]. *)
Theorem empty_slots_ignored lookup matchups weekly_projections r1 r2 :
  Roster.roster_id r1 = Roster.roster_id r2 →
  Roster.owner_id r1 = Roster.owner_id r2 →
  List.filter slot_truthy (Ranker.starters r1)
  = List.filter slot_truthy (Ranker.starters r2) →
  Ranker.team_summary lookup matchups weekly_projections r1
  = Ranker.team_summary lookup matchups weekly_projections r2.
Proof.
  intros Hid Howner Hslots.
  unfold Ranker.team_summary, Ranker.team_name, Ranker.find_matchup,
    Ranker.weekly_projected, Ranker.starters_played.
  rewrite Hid, Howner, Hslots.
  rewrite (add_starter_filter _ (Ranker.starters r1)),
    (add_starter_filter _ (Ranker.starters r2)),
    (count_played_filter _ (Ranker.starters r1)),
    (count_played_filter _ (Ranker.starters r2)), Hslots.
  done.
Qed.

(** The roster with slots [p1, null, "", p2] and the roster with slots
    [p1, p2], against projections and points filed under the empty id. *)
Lemma empty_slots_ignored_witness :
  Ranker.team_summary (Ranker.user_lookup Fixture.users) Fixture.matchups
    Fixture.weekly_projections Fixture.owned
  = Ranker.team_summary (Ranker.user_lookup Fixture.users) Fixture.matchups
      Fixture.weekly_projections Fixture.owned_compact.
Proof.
  apply empty_slots_ignored; reflexivity.
Defined.

(** The first loop reads the projections of the starters only. *)
Lemma add_starter_agree (wp1 wp2 : gmap string Projection.t)
    (starters : list (option string)) (acc : Q) :
  (∀ pid, Some pid ∈ starters → wp1 !! pid = wp2 !! pid) →
  fold_left (Ranker.add_starter wp1) starters acc
  = fold_left (Ranker.add_starter wp2) starters acc.
Proof.
  revert acc. induction starters as [|slot starters IH]; intros acc H; [done|].
  simpl. rewrite IH by (intros pid Hpid; apply H; by right).
  f_equal. destruct slot as [pid|]; simpl; [|done].
  by rewrite (H pid) by left.
Qed.

Lemma add_starter_no_record (weekly_projections : gmap string Projection.t)
    (starters : list (option string)) (acc : Q) :
  (∀ pid, Some pid ∈ starters → weekly_projections !! pid = None) →
  fold_left (Ranker.add_starter weekly_projections) starters acc = acc.
Proof.
  revert acc. induction starters as [|slot starters IH]; intros acc H; [done|].
  simpl. rewrite IH by (intros pid Hpid; apply H; by right).
  destruct slot as [pid|]; simpl; [|done].
  rewrite (H pid) by left. by destruct (negb (String.eqb pid "")).
Qed.

Lemma weekly_projected_no_record (weekly_projections : gmap string Projection.t)
    (starters : list (option string)) :
  (∀ pid, Some pid ∈ starters → weekly_projections !! pid = None) →
  Ranker.weekly_projected weekly_projections starters = 0%Q.
Proof.
  intros H. unfold Ranker.weekly_projected.
  rewrite add_starter_no_record by done. by destruct (dict_truthy _).
Qed.

(** X4. The projections of players who are not starters of a roster do not
    change its team: two projection mappings that agree on the roster's
    starters give the same entry of [teams_data]. *)
Theorem bench_projections_ignored lookup matchups wp1 wp2 roster :
  (∀ pid, Some pid ∈ Ranker.starters roster → wp1 !! pid = wp2 !! pid) →
  Ranker.team_summary lookup matchups wp1 roster
  = Ranker.team_summary lookup matchups wp2 roster.
Proof.
  intros H. unfold Ranker.team_summary. f_equal. f_equal.
  unfold Ranker.weekly_projected, dict_truthy.
  destruct (Nat.eqb_spec (size wp1) 0) as [->%map_size_empty_inv|_];
    destruct (Nat.eqb_spec (size wp2) 0) as [->%map_size_empty_inv|_];
    simpl; try done.
  - rewrite add_starter_no_record; [done|].
    intros pid Hpid. by rewrite <- H, lookup_empty.
  - rewrite add_starter_no_record; [done|].
    intros pid Hpid. by rewrite H, lookup_empty.
  - by apply add_starter_agree.
Qed.

(** The fixture with and without the projection of a bench player. *)
Lemma bench_projections_ignored_witness :
  Ranker.team_summary (Ranker.user_lookup Fixture.users) Fixture.matchups
    Fixture.weekly_projections Fixture.owned
  = Ranker.team_summary (Ranker.user_lookup Fixture.users) Fixture.matchups
      Fixture.starters_projections Fixture.owned.
Proof.
  apply bench_projections_ignored.
  intros pid Hpid.
  repeat (apply elem_of_cons in Hpid as [Hpid|Hpid];
          [try discriminate; injection Hpid as ->; vm_compute; reflexivity|]).
  by apply elem_of_nil in Hpid.
Defined.

(** X5. When no starter of a roster has a projection record, as when the
    accessor came back empty, the team's projected points is its current
    points: the ranking is then by current points. *)
Theorem no_projection_falls_back users rosters matchups weekly_projections i
    team :
  Ranker.teams_data users rosters matchups weekly_projections !! i = Some team →
  ∃ roster, rosters !! i = Some roster ∧
    ((∀ pid, Some pid ∈ Ranker.starters roster →
             weekly_projections !! pid = None) →
     Team.projected_points team = Team.current_points team).
Proof.
  intros (roster & Hroster & ->)%teams_data_lookup.
  exists roster. split; [done|]. intros H. simpl.
  by rewrite weekly_projected_no_record.
Qed.

(** The second roster of the fixture: its starter has no record. *)
Lemma no_projection_falls_back_witness :
  Team.projected_points Fixture.unnamed_team
  = Team.current_points Fixture.unnamed_team.
Proof.
  destruct (no_projection_falls_back Fixture.users Fixture.rosters
              Fixture.matchups Fixture.weekly_projections 1%nat
              Fixture.unnamed_team) as (roster & Hroster & Hfall);
    [vm_compute; reflexivity|].
  injection Hroster as <-. apply Hfall.
  intros pid ->%list_elem_of_singleton%(inj Some). vm_compute; reflexivity.
Defined.

(** X6. A roster that has no matchup and no starter with a projection
    record, as an eliminated team has, gets projected points 0 and is never
    exported, whatever league its summary is ranked in. *)
Theorem eliminated_roster_dropped users rosters matchups weekly_projections
    roster :
  (∀ m, m ∈ matchups → Matchup.roster_id m ≠ Roster.roster_id roster) →
  (∀ pid, Some pid ∈ Ranker.starters roster →
          weekly_projections !! pid = None) →
  let team := Ranker.team_summary (Ranker.user_lookup users) matchups
                weekly_projections roster in
  Team.projected_points team = 0%Q ∧
  team ∉ Ranker.active_teams users rosters matchups weekly_projections.
Proof.
  intros Hmatch Hproj team.
  assert (Team.projected_points team = 0%Q) as Hzero.
  { subst team. simpl.
    by rewrite weekly_projected_no_record, find_matchup_none. }
  split; [done|].
  intros [_ Hact]%active_teams_elem_of.
  unfold Ranker.is_active in Hact. rewrite Hzero in Hact. discriminate.
Qed.

(** Roster 5 in the league of the scenario: its starter e1 has no
    projection record and the roster has no matchup. *)
Lemma eliminated_roster_dropped_witness :
  let team := Team.mk "Team 5" 5 0%Q 0%Q 1 0 in
  Team.projected_points team = 0%Q ∧
  team
  ∉ Ranker.active_teams Scenario.users
      (Scenario.rosters ++ [Scenario.rosterE]) Scenario.matchups
      Scenario.weekly_projections.
Proof.
  apply (eliminated_roster_dropped Scenario.users
           (Scenario.rosters ++ [Scenario.rosterE]) Scenario.matchups
           Scenario.weekly_projections Scenario.rosterE).
  - intros m Hm.
    repeat (apply elem_of_cons in Hm as [->|Hm]; [discriminate|]).
    by apply elem_of_nil in Hm.
  - intros pid ->%list_elem_of_singleton%(inj Some). vm_compute; reflexivity.
Defined.

(** ** More about the filter and the sort *)

Lemma insert_by_key_perm {A} (key : A → Q) (x : A) (l : list A) :
  insert_by_key key x l ≡ₚ x :: l.
Proof.
  induction l as [|y l IH]; simpl; [done|].
  destruct (Qltb (key y) (key x)); [|done].
  rewrite IH. apply Permutation_swap.
Qed.

Lemma sort_by_key_perm {A} (key : A → Q) (l : list A) :
  sort_by_key key l ≡ₚ l.
Proof.
  induction l as [|x l IH]; simpl; [done|].
  by rewrite insert_by_key_perm, IH.
Qed.

Lemma filter_partition_length {A} (P : A → bool) (l : list A) :
  (length (List.filter P l) + length (List.filter (λ x, negb (P x)) l)
   = length l)%nat.
Proof.
  induction l as [|x l IH]; simpl; [done|].
  destruct (P x); simpl; lia.
Qed.

(** X7. The exported list holds exactly the teams of [teams_data] whose
    projected points is strictly positive, each as often as it is there:
    the sort loses no team and repeats none. *)
Theorem exported_permutation users rosters matchups weekly_projections :
  Ranker.active_teams users rosters matchups weekly_projections
  ≡ₚ List.filter (λ team, Qgtb (Team.projected_points team) 0)
       (Ranker.teams_data users rosters matchups weekly_projections).
Proof. apply sort_by_key_perm. Qed.

(** X8. The count printed as eliminated is the number of rosters whose team
    has projected points at most zero; with the exported teams they make up
    the rosters. *)
Theorem eliminated_count users rosters matchups weekly_projections :
  let teams := Ranker.teams_data users rosters matchups weekly_projections in
  let active := Ranker.active_teams users rosters matchups weekly_projections in
  Report.eliminated teams active
  = Z.of_nat (length (List.filter
                        (λ team, Qle_bool (Team.projected_points team) 0)
                        teams)) ∧
  (Z.of_nat (length active) + Report.eliminated teams active
   = Z.of_nat (length rosters))%Z.
Proof.
  intros teams active. unfold Report.eliminated.
  assert (length teams = length rosters) as Hlen
    by apply length_map.
  assert (length active = length (List.filter Ranker.is_active teams)) as Hact
    by apply Permutation_length, sort_by_key_perm.
  pose proof (filter_partition_length Ranker.is_active teams) as Hpart.
  assert (List.filter (λ team, negb (Ranker.is_active team)) teams
          = List.filter (λ team, Qle_bool (Team.projected_points team) 0) teams)
    as Heq.
  { apply filter_ext. intros team. unfold Ranker.is_active, Qgtb.
    apply negb_involutive. }
  rewrite Heq in Hpart. split; lia.
Qed.

(** ** The rows of the two reports *)

Lemma enumerate1_lookup {A} (l : list A) (k : nat) :
  Report.enumerate1 l !! k = (λ x, (S k, x)) <$> l !! k.
Proof. unfold Report.enumerate1. by rewrite list_lookup_imap. Qed.

Lemma map_lookup {A B} (f : A → B) (l : list A) (k : nat) :
  map f l !! k = f <$> l !! k.
Proof.
  revert k. induction l as [|x l IH]; intros [|k]; simpl; done.
Qed.

(** In a sorted list, an earlier element has at most the key of a later
    one. *)
Lemma sorted_pairs {A} (key : A → Q) (l : list A) (i j : nat) (a b : A) :
  Sorted (key_le key) l → l !! i = Some a → l !! j = Some b → (i ≤ j)%nat →
  (key a <= key b)%Q.
Proof.
  intros Hs Ha Hb Hij.
  replace j with (i + (j - i))%nat in Hb by lia.
  generalize dependent b. induction (j - i)%nat as [|d IH]; intros b Hb.
  - rewrite Nat.add_0_r in Hb. simplify_eq. apply Qle_refl.
  - destruct (lookup_lt_is_Some_2 l (i + d)) as [c Hc].
    { apply lookup_lt_Some in Hb. lia. }
    apply Qle_trans with (key c); [by apply IH|].
    apply (sorted_neighbours key l (i + d)); [done..|].
    by replace (S (i + d)) with (i + S d)%nat by lia.
Qed.

Lemma csv_rows_lookup (active_teams : list Team.t) (k : nat) :
  Report.csv_rows active_teams !! k =
  (λ team, Report.CsvRow (S k) (Team.team_name team)
             (Team.current_points team) (Team.projected_points team)
             (Team.starters_played team) (Team.starters_total team))
  <$> active_teams !! k.
Proof.
  unfold Report.csv_rows.
  rewrite map_lookup, enumerate1_lookup. by destruct (active_teams !! k).
Qed.

(** X9. In the CSV file of a run a row with a smaller risk rank never has
    more projected points than a row with a larger one. *)
Theorem csv_rank_order users rosters matchups weekly_projections r1 r2 :
  let rows := Report.csv_rows
                (Ranker.active_teams users rosters matchups weekly_projections) in
  r1 ∈ rows → r2 ∈ rows →
  (Report.risk_rank r1 ≤ Report.risk_rank r2)%nat →
  (Report.projected_points r1 <= Report.projected_points r2)%Q.
Proof.
  intros rows [k1 H1]%list_elem_of_lookup [k2 H2]%list_elem_of_lookup.
  unfold rows in H1, H2.
  rewrite csv_rows_lookup in H1. rewrite csv_rows_lookup in H2.
  destruct (Ranker.active_teams _ _ _ _ !! k1) as [t1|] eqn:Ht1; [|done].
  destruct (Ranker.active_teams _ _ _ _ !! k2) as [t2|] eqn:Ht2; [|done].
  simpl in H1, H2. injection H1 as <-. injection H2 as <-. simpl.
  intros Hrank.
  apply (sorted_pairs Team.projected_points
           (Ranker.active_teams users rosters matchups weekly_projections)
           k1 k2 t1 t2); [|done|done|lia].
  apply sort_by_key_sorted.
Qed.

(** Teams F (rank 1) and B (rank 5) of the league with ties. *)
Lemma csv_rank_order_witness :
  (Report.projected_points
     (Report.CsvRow 1 "Team 6" (88 # 4) (88 # 4) 0 1)
   <= Report.projected_points
        (Report.CsvRow 5 "B" (51 # 5) (427 # 5) 0 1))%Q.
Proof.
  apply (csv_rank_order Scenario.users
           ([Scenario.rosterD; Scenario.rosterF; Scenario.rosterE]
            ++ Scenario.rosters)
           Scenario.tie_matchups Scenario.weekly_projections).
  - apply list_elem_of_lookup. exists 0%nat. vm_compute; reflexivity.
  - apply list_elem_of_lookup. exists 4%nat. vm_compute; reflexivity.
  - simpl. lia.
Defined.

Lemma sheet_rows_lookup (active_teams : list Team.t) (k : nat) :
  Report.sheet_rows active_teams !! k =
  (λ team, Report.SheetRow (S k + 1) (Report.fill_color (S k)) (S k) team)
  <$> active_teams !! k.
Proof.
  unfold Report.sheet_rows.
  rewrite map_lookup, enumerate1_lookup. by destruct (active_teams !! k).
Qed.

(** X10. The data rows of the sheet, counted from 0 below the header: row
    [k] sits in sheet row [k + 2], has rank [k + 1] and the [k]-th team; the
    first two are red, the next three yellow, all others green. *)
Theorem sheet_bands (active_teams : list Team.t) (k : nat) (r : Report.sheet_row) :
  Report.sheet_rows active_teams !! k = Some r →
  Report.row r = (k + 2)%nat ∧ Report.rank r = (k + 1)%nat ∧
  active_teams !! k = Some (Report.team r) ∧
  (Report.fill_of r = Report.red_fill ↔ (k < 2)%nat) ∧
  (Report.fill_of r = Report.yellow_fill ↔ (2 ≤ k < 5)%nat) ∧
  (Report.fill_of r = Report.green_fill ↔ (5 ≤ k)%nat).
Proof.
  rewrite sheet_rows_lookup.
  destruct (active_teams !! k) as [team|]; [|done].
  intros [= <-]. simpl. unfold Report.fill_color.
  split; [lia|]. split; [lia|]. split; [done|].
  destruct (Nat.leb_spec (S k) 2); [|destruct (Nat.leb_spec (S k) 5)];
    repeat split; first [done | lia | intros; exfalso; lia].
Qed.

(** The third exported team of the league with ties is the first yellow
    row. *)
Lemma sheet_bands_witness :
  Report.row (Report.SheetRow 4 Report.yellow_fill 3 Scenario.teamC) = 4%nat ∧
  (Report.fill_of (Report.SheetRow 4 Report.yellow_fill 3 Scenario.teamC)
   = Report.yellow_fill ↔ (2 ≤ 2 < 5)%nat).
Proof.
  destruct (sheet_bands
              (Ranker.active_teams Scenario.users
                 ([Scenario.rosterD; Scenario.rosterF; Scenario.rosterE]
                  ++ Scenario.rosters)
                 Scenario.tie_matchups Scenario.weekly_projections)
              2%nat (Report.SheetRow 4 Report.yellow_fill 3 Scenario.teamC))
    as (Hrow & _ & _ & _ & Hyellow & _); [vm_compute; reflexivity|].
  split; [exact Hrow | exact Hyellow].
Defined.

(** X11. The colours follow the risk: in the sheet of a run a red row never
    has more projected points than a yellow or a green row, and a yellow row
    never more than a green row. *)
Theorem bands_follow_risk users rosters matchups weekly_projections r1 r2 :
  let rows := Report.sheet_rows
                (Ranker.active_teams users rosters matchups weekly_projections) in
  r1 ∈ rows → r2 ∈ rows →
  (Report.fill_of r1 = Report.red_fill ∧ Report.fill_of r2 ≠ Report.red_fill) ∨
  (Report.fill_of r1 = Report.yellow_fill ∧
   Report.fill_of r2 = Report.green_fill) →
  (Team.projected_points (Report.team r1)
   <= Team.projected_points (Report.team r2))%Q.
Proof.
  intros rows [k1 H1]%list_elem_of_lookup [k2 H2]%list_elem_of_lookup.
  unfold rows in H1, H2.
  rewrite sheet_rows_lookup in H1. rewrite sheet_rows_lookup in H2.
  destruct (Ranker.active_teams _ _ _ _ !! k1) as [t1|] eqn:Ht1; [|done].
  destruct (Ranker.active_teams _ _ _ _ !! k2) as [t2|] eqn:Ht2; [|done].
  simpl in H1, H2. injection H1 as <-. injection H2 as <-. simpl.
  intros Hfill.
  apply (sorted_pairs Team.projected_points
           (Ranker.active_teams users rosters matchups weekly_projections)
           k1 k2 t1 t2); [apply sort_by_key_sorted|done|done|].
  unfold Report.fill_color in Hfill.
  destruct (Nat.leb_spec (S k1) 2), (Nat.leb_spec (S k2) 2);
    destruct (Nat.leb_spec (S k1) 5), (Nat.leb_spec (S k2) 5);
    first [lia | destruct Hfill as [[? ?]|[? ?]]; congruence].
Qed.

(** The red row of team E and the yellow row of team A in the league with
    ties. *)
Lemma bands_follow_risk_witness :
  (Team.projected_points Scenario.teamE
   <= Team.projected_points Scenario.teamA)%Q.
Proof.
  apply (bands_follow_risk Scenario.users
           ([Scenario.rosterD; Scenario.rosterF; Scenario.rosterE]
            ++ Scenario.rosters)
           Scenario.tie_matchups Scenario.weekly_projections
           (Report.SheetRow 3 Report.red_fill 2 Scenario.teamE)
           (Report.SheetRow 5 Report.yellow_fill 4 Scenario.teamA)).
  - apply list_elem_of_lookup. exists 1%nat. vm_compute; reflexivity.
  - apply list_elem_of_lookup. exists 3%nat. vm_compute; reflexivity.
  - left. split; [reflexivity|discriminate].
Defined.

(** The loop over a column keeps the largest length seen so far. *)
Lemma max_length_fold (lengths : list nat) (m : nat) :
  let r := fold_left (λ max_length len,
                        if (max_length <? len)%nat then len else max_length)
                     lengths m in
  (m ≤ r)%nat ∧ (∀ len, len ∈ lengths → (len ≤ r)%nat) ∧ (r = m ∨ r ∈ lengths).
Proof.
  revert m. induction lengths as [|x l IH]; intros m; simpl.
  - split; [done|]. split; [|by left]. intros len Hlen.
    by apply elem_of_nil in Hlen.
  - destruct (IH (if (m <? x)%nat then x else m)) as (Hge & Hall & Hin).
    destruct (Nat.ltb_spec m x).
    + split; [lia|]. split.
      * intros len [->|Hlen]%elem_of_cons; [done|by apply Hall].
      * right. destruct Hin as [->|Hin]; [left|by right].
    + split; [lia|]. split.
      * intros len [->|Hlen]%elem_of_cons; [lia|by apply Hall].
      * destruct Hin as [->|Hin]; [by left|right; by right].
Qed.

(** X12. The width of a column is between 2 and 50; it is the text length
    of its longest cell plus 2, cut at 50, so every cell of at most 48
    characters fits with two to spare. *)
Theorem adjusted_width_rule (lengths : list nat) :
  (2 ≤ Report.adjusted_width lengths ≤ 50)%nat ∧
  (∀ len, len ∈ lengths →
     (Nat.min (len + 2) 50 ≤ Report.adjusted_width lengths)%nat) ∧
  (lengths ≠ [] →
   ∃ len, len ∈ lengths ∧ Report.adjusted_width lengths = Nat.min (len + 2) 50).
Proof.
  unfold Report.adjusted_width, Report.max_length.
  destruct (max_length_fold lengths 0) as (Hge & Hall & Hin).
  split; [lia|]. split.
  - intros len Hlen%Hall. lia.
  - intros Hne. destruct Hin as [H0|Hin]; [|eauto].
    destruct lengths as [|x l]; [done|].
    exists x. split; [by left|].
    assert (x ≤ 0)%nat by (rewrite <- H0; apply Hall; by left).
    rewrite H0. by replace x with 0%nat by lia.
Qed.

(** A column with the header "Team Name" and names of 1 and 60 characters. *)
Lemma adjusted_width_rule_witness :
  [9; 1; 60]%nat ≠ [] ∧
  ∃ len, len ∈ [9; 1; 60]%nat ∧
    Report.adjusted_width [9; 1; 60]%nat = Nat.min (len + 2) 50.
Proof.
  split; [discriminate|].
  apply (adjusted_width_rule [9; 1; 60]%nat). discriminate.
Defined.

(** ** More about the accessor: what any response leaves in the dict *)

Lemma key_eqb_refl (k : json) :
  Accessor.hashable k = true → Accessor.key_eqb k k = true.
Proof.
  destruct k as [|[]|q|s| |]; simpl; try done.
  - intros _. apply Qeq_bool_refl.
  - intros _. apply String.eqb_refl.
Qed.

(** Where the pairs of a dict come from after a store. *)
Lemma dict_store_elem (d : Accessor.pydict) (k v k' v' : json) :
  (k', v') ∈ Accessor.dict_store d k v →
  (k', v') ∈ d ∨
  (v' = v ∧ Accessor.key_eqb k' k = true ∧ ∃ v0, (k', v0) ∈ d) ∨
  (v' = v ∧ k' = k).
Proof.
  induction d as [|[k0 v0] d IH]; simpl.
  - intros Hin%list_elem_of_singleton. injection Hin as -> ->.
    by right; right.
  - destruct (Accessor.key_eqb k0 k) eqn:H0.
    + intros [[= -> ->]|Hin]%elem_of_cons.
      * right; left. split; [done|]. split; [done|]. exists v0. by left.
      * left. by right.
    + intros [[= -> ->]|Hin]%elem_of_cons; [left; by left|].
      destruct (IH Hin) as [?|[(-> & ? & v1 & ?)|[-> ->]]].
      * left. by right.
      * right; left. split; [done|]. split; [done|]. exists v1. by right.
      * by right; right.
Qed.

(** What one turn of the first loop does when it does not raise. *)
Lemma rekey_step_inv (d d1 : Accessor.pydict) (player_data : json) :
  Accessor.rekey_step d player_data = Ok d1 →
  ∃ fields, player_data = JObj fields ∧
    (d1 = d ∨
     ∃ player_id,
       Accessor.field "player_id" fields = Some player_id ∧
       Accessor.truthy player_id = true ∧
       Accessor.hashable player_id = true ∧
       d1 = Accessor.dict_store d player_id player_data).
Proof.
  destruct player_data as [| | | | |fields]; try done.
  unfold Accessor.rekey_step, Accessor.dict_set. run_bind.
  intros H. exists fields. split; [done|].
  destruct (Accessor.field "player_id" fields) as [player_id|]; simpl in H.
  - destruct (Accessor.truthy player_id) eqn:Ht; [|left; congruence].
    destruct (Accessor.hashable player_id) eqn:Hh; [|done].
    right. exists player_id. repeat split; congruence.
  - left. congruence.
Qed.

Lemma filed_under_mono (data data' : list json) (k v : json) :
  data ⊆ data' → Dict.filed_under data k v → Dict.filed_under data' k v.
Proof.
  intros Hsub (Ht & Hh & Hin & Hid). repeat split; [done..| |done].
  by apply Hsub.
Qed.

(** The first loop files every record under its own identifier. *)
Lemma rekey_loop_filed (items seen : list json) (d0 d : Accessor.pydict) :
  (∀ k v, (k, v) ∈ d0 → Dict.filed_under seen k v) →
  Accessor.rekey_loop items d0 = Ok d →
  ∀ k v, (k, v) ∈ d → Dict.filed_under (seen ++ items) k v.
Proof.
  revert seen d0. induction items as [|e items IH]; intros seen d0 Hinv; simpl.
  - intros [= <-] k v Hin. rewrite app_nil_r. by apply Hinv.
  - destruct (Accessor.rekey_step d0 e) as [d1|] eqn:Hstep; run_bind; [|done].
    intros Hloop k v Hin.
    replace (seen ++ e :: items) with ((seen ++ [e]) ++ items)
      by (by rewrite <- app_assoc).
    apply (IH (seen ++ [e]) d1); [|done..].
    clear k v Hin. intros k v Hin.
    apply rekey_step_inv in Hstep
      as (fields & -> & [->|(player_id & Hfield & Ht & Hh & ->)]).
    { eapply filed_under_mono; [|by apply Hinv]. set_solver. }
    apply dict_store_elem in Hin
      as [Hin|[(-> & Heq & v0 & Hin)|[-> ->]]].
    + eapply filed_under_mono; [|by apply Hinv]. set_solver.
    + destruct (Hinv _ _ Hin) as (Htk & Hhk & _).
      repeat split; [done..|set_solver|]. by exists fields, player_id.
    + repeat split; [done..|set_solver|].
      exists fields, player_id. repeat split; [done|]. by apply key_eqb_refl.
Qed.

Lemma dict_store_distinct (d : Accessor.pydict) (k v : json) :
  Dict.distinct_keys d → Dict.distinct_keys (Accessor.dict_store d k v).
Proof.
  unfold Dict.distinct_keys.
  induction d as [|[k0 v0] d IH]; simpl; intros Hd.
  - constructor; constructor.
  - inversion Hd as [|? ? Hhead Htail]; subst.
    destruct (Accessor.key_eqb k0 k) eqn:H0.
    + by constructor.
    + constructor; [|by apply IH].
      apply Forall_forall. intros [k' v'] Hin. simpl.
      apply dict_store_elem in Hin as [Hin|[(_ & _ & v1 & Hin)|[_ ->]]].
      * by apply (proj1 (Forall_forall _ _) Hhead (k', v')).
      * by apply (proj1 (Forall_forall _ _) Hhead (k', v1)).
      * done.
Qed.

Lemma rekey_loop_distinct (items : list json) (d0 d : Accessor.pydict) :
  Dict.distinct_keys d0 → Accessor.rekey_loop items d0 = Ok d →
  Dict.distinct_keys d.
Proof.
  revert d0. induction items as [|e items IH]; intros d0 Hd; simpl.
  - by intros [= <-].
  - destruct (Accessor.rekey_step d0 e) as [d1|] eqn:Hstep; run_bind; [|done].
    apply IH.
    apply rekey_step_inv in Hstep as (fields & -> & [->|(? & _ & _ & _ & ->)]);
      [done|by apply dict_store_distinct].
Qed.

(** Reading a pair that is in a dict with distinct keys. *)
Lemma dict_get_elem (d : Accessor.pydict) (k v : json) :
  Dict.distinct_keys d → Accessor.key_eqb k k = true → (k, v) ∈ d →
  Accessor.dict_get d k = Some v.
Proof.
  unfold Dict.distinct_keys. intros Hd Hrefl.
  induction d as [|[k0 v0] d IH]; simpl; [by intros ?%elem_of_nil|].
  inversion Hd as [|? ? Hhead Htail]; subst.
  intros [[= <- <-]|Hin]%elem_of_cons.
  - by rewrite Hrefl.
  - pose proof (proj1 (Forall_forall _ _) Hhead (k, v) Hin) as Hne.
    simpl in Hne. rewrite Hne. by apply IH.
Qed.

(** A result that is not empty comes out of the first loop on a decoded body
    of a response 200. *)
Lemma try_block_inv (r : Accessor.http_outcome) (d : Accessor.pydict) :
  Accessor.try_block r = Ok (Some d) →
  ∃ data items,
    r = Accessor.Response 200 (Some data) ∧
    Accessor.py_iter data = Ok items ∧
    Accessor.rekey_loop items [] = Ok d.
Proof.
  destruct r as [|status_code body]; [done|].
  unfold Accessor.try_block.
  destruct (Z.eqb_spec status_code 200) as [->|_]; [|done].
  destruct body as [data|]; [|done].
  unfold mbind, result_bind, Accessor.response_json.
  destruct (Accessor.py_len data); [|done].
  destruct (Accessor.py_iter data) as [items|] eqn:Hiter; [|done].
  destruct (Accessor.rekey_loop items []) as [d'|] eqn:Hloop; [|done].
  destruct (Accessor.py_slice50 data) as [first50|]; [|done].
  destruct (Accessor.py_iter first50) as [items50|]; [|done].
  destruct (Accessor.sample_loop items50 []) as [players|]; [|done].
  destruct (if list_truthy players then _ else _); [|done].
  intros [= <-]. by exists data, items.
Qed.

Lemma get_weekly_projections_inv (r : Accessor.http_outcome) :
  Accessor.get_weekly_projections r = [] ∨
  ∃ data items,
    r = Accessor.Response 200 (Some data) ∧
    Accessor.py_iter data = Ok items ∧
    Accessor.rekey_loop items [] = Ok (Accessor.get_weekly_projections r).
Proof.
  unfold Accessor.get_weekly_projections.
  destruct (Accessor.try_block r) as [[d|]|e] eqn:Htry; [right|by left..].
  by apply try_block_inv.
Qed.

(** Only a list yields records that are objects. *)
Lemma py_iter_object (data : json) (items : list json)
    (fields : list (string * json)) :
  Accessor.py_iter data = Ok items → JObj fields ∈ items → data = JArr items.
Proof.
  destruct data as [| | |s|l|fs]; simpl; try done.
  - intros [= <-] Hin. apply list_elem_of_In, in_map_iff in Hin as (? & ? & _).
    discriminate.
  - by intros [= <-].
  - intros [= <-] Hin. apply list_elem_of_In, in_map_iff in Hin as (? & ? & _).
    discriminate.
Qed.

(** X13. Whatever the response, every pair of the returned dict holds a
    record of the response's list, an object, under a key that equals the
    record's own [player_id], can key a dict and is no empty or zero value:
    the accessor never files a record under [null], the empty string or a
    foreign identifier. *)
Theorem records_filed_under_own_id (r : Accessor.http_outcome) (k v : json) :
  (k, v) ∈ Accessor.get_weekly_projections r →
  ∃ data, r = Accessor.Response 200 (Some (JArr data)) ∧
    Dict.filed_under data k v.
Proof.
  intros Hin.
  destruct (get_weekly_projections_inv r)
    as [Hnil|(data & items & -> & Hiter & Hloop)].
  { rewrite Hnil in Hin. by apply elem_of_nil in Hin. }
  assert (Dict.filed_under ([] ++ items) k v) as Hfiled.
  { eapply rekey_loop_filed; [|exact Hloop|exact Hin].
    by intros ? ? ?%elem_of_nil. }
  simpl in Hfiled. exists items. split; [|done].
  destruct Hfiled as (_ & _ & Hv & fields & _ & -> & _).
  by rewrite (py_iter_object _ _ _ Hiter Hv).
Qed.

(** The sample body: the later record of player 4046 is under its key. *)
Lemma records_filed_under_own_id_witness :
  ∃ data,
    Accessor.Response 200 (Some (JArr Scenario.body))
    = Accessor.Response 200 (Some (JArr data)) ∧
    Dict.filed_under data (JStr "4046") (Scenario.entry (Some "4046") 19%Q).
Proof.
  apply records_filed_under_own_id.
  apply list_elem_of_lookup. exists 0%nat. vm_compute; reflexivity.
Defined.

(** X14. Looking up the key of any pair of the returned dict gives the
    record of that pair: no two keys of the dict are equal, whatever the
    response was. *)
Theorem returned_dict_lookup (r : Accessor.http_outcome) (k v : json) :
  (k, v) ∈ Accessor.get_weekly_projections r →
  Accessor.dict_get (Accessor.get_weekly_projections r) k = Some v.
Proof.
  intros Hin.
  destruct (get_weekly_projections_inv r)
    as [Hnil|(data & items & _ & _ & Hloop)].
  { rewrite Hnil in Hin. by apply elem_of_nil in Hin. }
  apply dict_get_elem; [| |done].
  - apply (rekey_loop_distinct items []); [constructor|done].
  - apply key_eqb_refl.
    assert (Dict.filed_under ([] ++ items) k v) as (_ & Hh & _); [|done].
    eapply rekey_loop_filed; [|exact Hloop|exact Hin].
    by intros ? ? ?%elem_of_nil.
Qed.

(** The sample body: player 96. *)
Lemma returned_dict_lookup_witness :
  Accessor.dict_get
    (Accessor.get_weekly_projections
       (Accessor.Response 200 (Some (JArr Scenario.body)))) (JStr "96")
  = Some (Scenario.entry (Some "96") 17%Q).
Proof.
  apply returned_dict_lookup.
  apply list_elem_of_lookup. exists 1%nat. vm_compute; reflexivity.
Defined.

(** A body that is not a JSON list leaves nothing in the dict. *)
Lemma non_list_body_nothing_filed (status_code : Z) (body : option json) :
  (∀ data, body ≠ Some (JArr data)) →
  Accessor.get_weekly_projections (Accessor.Response status_code body) = [].
Proof.
  intros Hbody.
  destruct (get_weekly_projections_inv (Accessor.Response status_code body))
    as [Hnil|(data & items & Hr & Hiter & Hloop)]; [done|].
  destruct (Accessor.get_weekly_projections _) as [|[k v] d] eqn:Hget; [done|].
  assert (Dict.filed_under ([] ++ items) k v) as Hfiled.
  { eapply rekey_loop_filed; [|exact Hloop|by left].
    by intros ? ? ?%elem_of_nil. }
  destruct Hfiled as (_ & _ & Hv & fields & _ & -> & _).
  injection Hr as -> ->.
  destruct (Hbody items). by rewrite (py_iter_object _ _ _ Hiter Hv).
Qed.

(** The first loop raises at a record it cannot file, if not before. *)
Lemma rekey_loop_unfileable (items : list json) (d : Accessor.pydict) :
  Exists (λ player_data, Dict.unfileable player_data = true) items →
  ∃ e, Accessor.rekey_loop items d = Raise e.
Proof.
  intros Hex. revert d. induction Hex as [x l Hx|x l _ IH]; intros d; simpl.
  - assert (∃ e, Accessor.rekey_step d x = Raise e) as [e ->]; [|by eexists].
    destruct x as [| | | | |fields]; try by eexists.
    unfold Accessor.rekey_step, Accessor.dict_set. run_bind.
    simpl in Hx.
    destruct (Accessor.field "player_id" fields) as [player_id|]; [|done].
    simpl. apply andb_prop in Hx as [-> ->%negb_true_iff]. by eexists.
  - destruct (Accessor.rekey_step d x) as [d1|e]; run_bind; [apply IH|].
    by eexists.
Qed.

(** A record that cannot be filed leaves nothing in the dict. *)
Lemma unfileable_record_nothing_filed (data : list json) :
  Exists (λ player_data, Dict.unfileable player_data = true) data →
  Accessor.get_weekly_projections (Accessor.Response 200 (Some (JArr data)))
  = [].
Proof.
  intros Hex. destruct (rekey_loop_unfileable data [] Hex) as [e He].
  unfold Accessor.get_weekly_projections, Accessor.try_block.
  run_bind. by rewrite He.
Qed.


(** ** The accessor and the fetches with their prints *)

(** The prints only add ways to raise: what the [try] block returns with
    them it returns without. *)
Lemma client_print_loop_ok (c : Client.console) (players : list json) :
  Client.print_loop c players = Ok () → Accessor.print_loop players = Ok ().
Proof.
  induction players as [|player_data players IH]; simpl; [done|].
  unfold mbind, result_bind.
  destruct (Accessor.print_sample player_data) as [[]|]; [|done].
  destruct (Client.print c (Client.PlayerLine player_data)); [|done].
  apply IH.
Qed.

Lemma client_try_block_ok (c : Client.console) (week : json)
    (r : Accessor.http_outcome) (x : option Accessor.pydict) :
  Client.try_block c week r = Ok x → Accessor.try_block r = Ok x.
Proof.
  unfold Client.try_block, Accessor.try_block, mbind, result_bind.
  destruct (Client.print c (Client.ApiRequest _)); [|done].
  destruct r as [|status_code body]; [done|].
  destruct (Z.eqb status_code 200).
  - destruct (Accessor.response_json body) as [data|]; [|done].
    destruct (Accessor.py_len data) as [n|]; [|done].
    destruct (Client.print c (Client.Found n)); [|done].
    destruct (Accessor.py_iter data) as [items|]; [|done].
    destruct (Accessor.rekey_loop items []) as [d|]; [|done].
    destruct (Accessor.py_slice50 data) as [first50|]; [|done].
    destruct (Accessor.py_iter first50) as [items50|]; [|done].
    destruct (Accessor.sample_loop items50 []) as [players|]; [|done].
    destruct (list_truthy players).
    + destruct (Client.print c Client.PlayersHeader); [|done].
      destruct (Client.print_loop c players) as [[]|] eqn:Hloop; [|done].
      by rewrite (client_print_loop_ok _ _ Hloop).
    + by destruct (Client.print c Client.NoPlayers).
  - by destruct (Client.print c (Client.NoData status_code)).
Qed.

(** On a console that takes every line the prints change nothing. *)
Lemma client_print_loop_printing (c : Client.console) (players : list json) :
  (∀ l, c l = true) →
  Client.print_loop c players = Accessor.print_loop players.
Proof.
  intros Hc. induction players as [|player_data players IH]; simpl; [done|].
  unfold mbind, result_bind, Client.print. rewrite Hc.
  by destruct (Accessor.print_sample player_data).
Qed.

Lemma client_try_block_printing (c : Client.console) (week : json)
    (r : Accessor.http_outcome) :
  (∀ l, c l = true) → Client.try_block c week r = Accessor.try_block r.
Proof.
  intros Hc.
  unfold Client.try_block, Accessor.try_block, mbind, result_bind,
    Client.print.
  rewrite !Hc.
  destruct r as [|status_code body]; [done|].
  destruct (Z.eqb status_code 200); [|by rewrite Hc].
  destruct (Accessor.response_json body) as [data|]; [|done].
  destruct (Accessor.py_len data) as [n|]; [|done].
  rewrite Hc.
  destruct (Accessor.py_iter data) as [items|]; [|done].
  destruct (Accessor.rekey_loop items []) as [d|]; [|done].
  destruct (Accessor.py_slice50 data) as [first50|]; [|done].
  destruct (Accessor.py_iter first50) as [items50|]; [|done].
  destruct (Accessor.sample_loop items50 []) as [players|]; [|done].
  rewrite client_print_loop_printing by done.
  by destruct (list_truthy players).
Qed.

(** When the handler's own line can be printed, the accessor returns: the
    empty dict, or the dict of the [try] block. *)
Lemma client_accessor_returns (c : Client.console) (week : json)
    (r : Accessor.http_outcome) :
  (∀ e, c (Client.Error e) = true) →
  Client.get_weekly_projections c week r = Ok [] ∨
  Client.get_weekly_projections c week r
  = Ok (Accessor.get_weekly_projections r).
Proof.
  intros Herr. unfold Client.get_weekly_projections.
  destruct (Client.try_block c week r) as [[d|]|e] eqn:Htry.
  - right. apply client_try_block_ok in Htry.
    unfold Accessor.get_weekly_projections. by rewrite Htry.
  - by left.
  - left. unfold mbind, result_bind, Client.print. by rewrite Herr.
Qed.

(** Whatever the console, what the accessor returns is the empty dict or
    the dict of the [try] block; on a console that takes every line it
    returns the latter. *)
Lemma client_accessor_value (c : Client.console) (week : json)
    (r : Accessor.http_outcome) (d : Accessor.pydict) :
  Client.get_weekly_projections c week r = Ok d →
  d = [] ∨ d = Accessor.get_weekly_projections r.
Proof.
  unfold Client.get_weekly_projections.
  destruct (Client.try_block c week r) as [[d'|]|e] eqn:Htry.
  - intros [= <-]. right. apply client_try_block_ok in Htry.
    unfold Accessor.get_weekly_projections. by rewrite Htry.
  - intros [= <-]. by left.
  - unfold mbind, result_bind.
    destruct (Client.print c (Client.Error e)); [|done].
    intros [= <-]. by left.
Qed.

Lemma client_accessor_printing (c : Client.console) (week : json)
    (r : Accessor.http_outcome) :
  (∀ l, c l = true) →
  Client.get_weekly_projections c week r
  = Ok (Accessor.get_weekly_projections r).
Proof.
  intros Hc.
  unfold Client.get_weekly_projections, Accessor.get_weekly_projections.
  rewrite client_try_block_printing by done.
  destruct (Accessor.try_block r) as [[d|]|e]; [done..|].
  unfold mbind, result_bind, Client.print. by rewrite Hc.
Qed.

(** What the [try] block does on a console without U+2713 and U+2717: it
    raises, or it returned before printing, which it never does. *)
Lemma client_try_block_raises (c : Client.console) (week : json)
    (r : Accessor.http_outcome) :
  (∀ n, c (Client.Found n) = false) →
  (∀ status_code, c (Client.NoData status_code) = false) →
  ∃ e, Client.try_block c week r = Raise e.
Proof.
  intros Hfound Hnodata.
  unfold Client.try_block, mbind, result_bind, Client.print.
  destruct (c (Client.ApiRequest _)); [|by eexists].
  destruct r as [|status_code body]; [by eexists|].
  destruct (Z.eqb status_code 200).
  - destruct (Accessor.response_json body) as [data|]; [|by eexists].
    destruct (Accessor.py_len data) as [n|]; [|by eexists].
    rewrite Hfound. by eexists.
  - rewrite Hnodata. by eexists.
Qed.

(** C7, where the code fails it.  The accessor is to absorb every failure
    and return the empty mapping.  On a console that cannot print U+2713
    and U+2717, as one with an ASCII encoding, it propagates the
    [UnicodeEncodeError] of its own handler's print instead, whatever the
    network answered: a status other than 200, a transport error, or a good
    list of records. *)
Theorem accessor_propagates_print_error (c : Client.console) (week : json)
    (r : Accessor.http_outcome) :
  (∀ n, c (Client.Found n) = false) →
  (∀ status_code, c (Client.NoData status_code) = false) →
  (∀ e, c (Client.Error e) = false) →
  Client.get_weekly_projections c week r = Raise UnicodeEncodeError.
Proof.
  intros Hfound Hnodata Herr.
  destruct (client_try_block_raises c week r Hfound Hnodata) as [e He].
  unfold Client.get_weekly_projections, mbind, result_bind, Client.print.
  by rewrite He, Herr.
Qed.

(** The ASCII console with the projections endpoint answering 503, failing,
    and answering the sample body. *)
Lemma accessor_propagates_print_error_witness :
  Client.get_weekly_projections Client.ascii (JNum 3)
    (Accessor.Response 503 (Some (JObj []))) = Raise UnicodeEncodeError ∧
  Client.get_weekly_projections Client.ascii (JNum 3) Accessor.RequestFailed
  = Raise UnicodeEncodeError ∧
  Client.get_weekly_projections Client.ascii (JNum 3)
    (Accessor.Response 200 (Some (JArr Scenario.body)))
  = Raise UnicodeEncodeError.
Proof.
  split; [|split].
  - apply (accessor_propagates_print_error Client.ascii (JNum 3)
             (Accessor.Response 503 (Some (JObj [])))); intros; reflexivity.
  - apply (accessor_propagates_print_error Client.ascii (JNum 3)
             Accessor.RequestFailed); intros; reflexivity.
  - apply (accessor_propagates_print_error Client.ascii (JNum 3)
             (Accessor.Response 200 (Some (JArr Scenario.body))));
      intros; reflexivity.
Defined.

(** X15. When the handler's own line can be printed, a response whose body
    is not a JSON list yields the empty mapping, whatever the status,
    whatever the body is instead and whatever else the console refuses. *)
Theorem non_list_body_empty (c : Client.console) (week : json)
    (status_code : Z) (body : option json) :
  (∀ e, c (Client.Error e) = true) →
  (∀ data, body ≠ Some (JArr data)) →
  Client.get_weekly_projections c week (Accessor.Response status_code body)
  = Ok [].
Proof.
  intros Herr Hbody.
  destruct (client_accessor_returns c week
              (Accessor.Response status_code body) Herr) as [->| ->]; [done|].
  by rewrite non_list_body_nothing_filed.
Qed.

(** An object in place of the list, as an error document would be, on a
    console that cannot print U+2713. *)
Lemma non_list_body_empty_witness :
  Client.get_weekly_projections Fixture.no_check_mark (JNum 3)
    (Accessor.Response 200 (Some (JObj [("error", JStr "no data")])))
  = Ok [].
Proof.
  apply non_list_body_empty; [reflexivity|discriminate].
Defined.

(** X16. All or nothing: when the handler's own line can be printed and a
    record of the list is no object, or has a non-empty list or object as
    [player_id], the accessor returns the empty mapping, the records filed
    before that one included. *)
Theorem unfileable_record_empties (c : Client.console) (week : json)
    (data : list json) :
  (∀ e, c (Client.Error e) = true) →
  Exists (λ player_data, Dict.unfileable player_data = true) data →
  Client.get_weekly_projections c week
    (Accessor.Response 200 (Some (JArr data)))
  = Ok [].
Proof.
  intros Herr Hex.
  destruct (client_accessor_returns c week
              (Accessor.Response 200 (Some (JArr data))) Herr) as [->| ->];
    [done|].
  by rewrite unfileable_record_nothing_filed.
Qed.

(** A list with a good record followed by a string. *)
Lemma unfileable_record_empties_witness :
  Client.get_weekly_projections Client.utf8 (JNum 3)
    (Accessor.Response 200 (Some (JArr Fixture.body_with_string)))
  = Ok [].
Proof.
  apply unfileable_record_empties; [reflexivity|].
  apply Exists_cons_tl, Exists_cons_hd. reflexivity.
Defined.

(** A binding that [field] finds is a pair of the object, and in an object
    with distinct keys it finds every pair. *)
Lemma field_elem (k : string) (fields : list (string * json)) (v : json) :
  Accessor.field k fields = Some v → (k, v) ∈ fields.
Proof.
  induction fields as [|[k' v'] fields IH]; simpl; [done|].
  destruct (String.eqb_spec k' k) as [->|_].
  - intros [= ->]. by left.
  - intros Hfield. right. by apply IH.
Qed.

Lemma elem_field (k : string) (fields : list (string * json)) (v : json) :
  NoDup fields.*1 → (k, v) ∈ fields → Accessor.field k fields = Some v.
Proof.
  induction fields as [|[k' v'] fields IH]; simpl;
    [by intros _ ?%elem_of_nil|].
  intros [Hfresh Hnodup]%NoDup_cons [[= <- <-]|Hin]%elem_of_cons.
  - by rewrite String.eqb_refl.
  - destruct (String.eqb_spec k' k) as [->|_]; [|by apply IH].
    destruct Hfresh. apply list_elem_of_fmap. by exists (k, v).
Qed.

(** Only a string equals a string. *)
Lemma key_eqb_str_r (k : json) (s : string) :
  Accessor.key_eqb k (JStr s) = true → k = JStr s.
Proof.
  destruct k as [|[]| | | |]; simpl; try done. by intros ->%String.eqb_eq.
Qed.

Lemma key_eqb_str_l (k : json) (s : string) :
  Accessor.key_eqb (JStr s) k = true → k = JStr s.
Proof.
  destruct k as [|[]| | | |]; simpl; try done. by intros ->%String.eqb_eq.
Qed.

(** What a lookup finds is a pair of the dict. *)
Lemma dict_get_pair (d : Accessor.pydict) (k v : json) :
  Accessor.dict_get d k = Some v →
  ∃ k', (k', v) ∈ d ∧ Accessor.key_eqb k' k = true.
Proof.
  induction d as [|[k0 v0] d IH]; simpl; [done|].
  destruct (Accessor.key_eqb k0 k) eqn:H0.
  - intros [= ->]. exists k0. split; [by left|done].
  - intros (k' & Hin & Hk)%IH. exists k'. split; [by right|done].
Qed.

(** Keys that can key a dict and are pairwise unequal are pairwise
    different. *)
Lemma distinct_keys_NoDup (d : Accessor.pydict) :
  Dict.distinct_keys d →
  (∀ k v, (k, v) ∈ d → Accessor.hashable k = true) →
  NoDup d.*1.
Proof.
  unfold Dict.distinct_keys.
  induction 1 as [|[k v] d Hhead Htail IH]; intros Hhash; simpl;
    constructor.
  - intros ([k' v'] & Heq & Hin)%list_elem_of_fmap. simpl in Heq. subst k'.
    pose proof (proj1 (Forall_forall _ _) Hhead (k, v') Hin) as Hne.
    simpl in Hne. rewrite key_eqb_refl in Hne; [done|].
    apply (Hhash k v). by left.
  - apply IH. intros k' v' Hin. apply (Hhash k' v'). by right.
Qed.

Lemma find_none_app {A} (P : A → bool) (l1 l2 : list A) :
  (∀ x, In x l1 → P x = false) → List.find P (l1 ++ l2) = List.find P l2.
Proof.
  induction l1 as [|y l1 IH]; simpl; [done|]. intros Hnone.
  rewrite (Hnone y) by (by left). apply IH. intros x Hx. apply Hnone. by right.
Qed.

(** The last record of a list with the identifier [s]. *)
Lemma spec_rekeyed_last (pre post : list json) (fields : list (string * json))
    (s : string) :
  NoDup fields.*1 →
  ("player_id", JStr s) ∈ fields →
  (∀ fields', JObj fields' ∈ post → ("player_id", JStr s) ∉ fields') →
  Accessor.spec_rekeyed (pre ++ JObj fields :: post) (JStr s)
  = Some (JObj fields).
Proof.
  intros Hnodup Hin Hpost. unfold Accessor.spec_rekeyed.
  rewrite rev_app_distr. simpl. rewrite <- !app_assoc. simpl.
  rewrite find_none_app.
  - simpl. rewrite (elem_field _ _ _ Hnodup Hin). simpl.
    by rewrite String.eqb_refl.
  - intros v Hv%in_rev%list_elem_of_In.
    destruct v as [| | | | |fields']; try done. simpl.
    destruct (Accessor.field "player_id" fields') as [player_id|] eqn:Hfield;
      [|done].
    destruct (Accessor.key_eqb player_id (JStr s)) eqn:Heq;
      [|by destruct player_id].
    apply key_eqb_str_r in Heq. subst player_id.
    destruct (Hpost fields' Hv). by apply field_elem.
Qed.

(** X21. On a console that takes every line, a response 200 whose body is
    a list of the provider's records is returned re-keyed.  The accessor
    returns a dict with no key twice.  A lookup gives the last record of
    the list carrying the key.  Every record under a string is a record of
    the list whose [player_id] is that string, which is not empty.  And a
    record with a string as [player_id] that no later record of the list
    carries is in the dict under that string, so the records without
    identifier, and only they and the overwritten ones, are missing. *)
Theorem provider_list_rekeyed (c : Client.console) (week : json)
    (data : list json) :
  (∀ l, c l = true) →
  forallb Accessor.provider_entry data = true →
  ∃ d, Client.get_weekly_projections c week
         (Accessor.Response 200 (Some (JArr data))) = Ok d ∧
    NoDup d.*1 ∧
    (∀ k, Accessor.dict_get d k = Accessor.spec_rekeyed data k) ∧
    (∀ s v, (JStr s, v) ∈ d →
       s ≠ "" ∧ v ∈ data ∧
       ∃ fields, v = JObj fields ∧ ("player_id", JStr s) ∈ fields) ∧
    (∀ pre fields post s,
       data = pre ++ JObj fields :: post →
       NoDup fields.*1 →
       ("player_id", JStr s) ∈ fields →
       (∀ fields', JObj fields' ∈ post → ("player_id", JStr s) ∉ fields') →
       (JStr s, JObj fields) ∈ d).
Proof.
  intros Hc Hdata.
  destruct (provider_list_try_block data Hdata) as (d & Htry & Hget).
  exists d. split.
  { unfold Client.get_weekly_projections.
    by rewrite client_try_block_printing, Htry. }
  destruct (try_block_inv _ _ Htry) as (data' & items & [= <-] & [= <-] & Hloop).
  assert (∀ k v, (k, v) ∈ d → Dict.filed_under data k v) as Hfiled.
  { intros k v Hin.
    apply (rekey_loop_filed data [] [] d); [|done..].
    by intros ? ? ?%elem_of_nil. }
  split; [|split; [done|split]].
  - apply distinct_keys_NoDup.
    + apply (rekey_loop_distinct data []); [constructor|done].
    + intros k v Hin. by destruct (Hfiled k v Hin) as (_ & ? & _).
  - intros s v Hin.
    destruct (Hfiled _ _ Hin)
      as (Htruthy & _ & Hv & fields & player_id & -> & Hfield & Heq).
    apply key_eqb_str_l in Heq. subst player_id.
    split; [by intros ->|]. split; [done|].
    exists fields. split; [done|]. by apply field_elem.
  - intros pre fields post s -> Hnodup Hin Hpost.
    pose proof (Hget (JStr s)) as Hs.
    rewrite (spec_rekeyed_last _ _ _ _ Hnodup Hin Hpost) in Hs.
    apply dict_get_pair in Hs as (k' & Hpair & Heq).
    by apply key_eqb_str_r in Heq as ->.
Qed.

(** The sample body: the dict has the two identifiers in the order of their
    first record, 4046 with its later record, and nothing for the record
    without identifier. *)
Lemma provider_list_rekeyed_witness :
  ∃ d, Client.get_weekly_projections Client.utf8 (JNum 3)
         (Accessor.Response 200 (Some (JArr Scenario.body))) = Ok d ∧
    d = [(JStr "4046", Scenario.entry (Some "4046") 19%Q);
         (JStr "96", Scenario.entry (Some "96") 17%Q)] ∧
    (JStr "4046", Scenario.entry (Some "4046") 19%Q) ∈ d ∧
    Accessor.dict_get d (JStr "4046")
    = Some (Scenario.entry (Some "4046") 19%Q).
Proof.
  destruct (provider_list_rekeyed Client.utf8 (JNum 3) Scenario.body)
    as (d & Hd & _ & Hget & _ & Hlast); [reflexivity|vm_compute; reflexivity|].
  exists d. split; [exact Hd|].
  assert (d = [(JStr "4046", Scenario.entry (Some "4046") 19%Q);
               (JStr "96", Scenario.entry (Some "96") 17%Q)]) as Heq.
  { vm_compute in Hd. injection Hd as <-. reflexivity. }
  split; [exact Heq|]. split.
  - apply (Hlast [Scenario.entry (Some "4046") 21%Q; Scenario.entry None 3%Q;
                  Scenario.entry (Some "96") 17%Q] _ [] "4046").
    + reflexivity.
    + apply (bool_decide_unpack _). vm_compute. reflexivity.
    + by left.
    + by intros ? ?%elem_of_nil.
  - rewrite Hget. vm_compute. reflexivity.
Defined.

(** A required accessor returns [v] exactly from an answer without
    transport error, with a status that is no 4xx and no 5xx, and with a
    body that decodes to [v]. *)
Lemma get_json_answered (r : Accessor.http_outcome) (v : json) :
  Client.get_json r = Ok v ↔ Client.answered r v.
Proof.
  unfold Client.get_json, Client.answered, Client.raise_for_status,
    mbind, result_bind.
  destruct r as [|status_code body].
  { split; [done|]. by intros (? & ? & _). }
  destruct (Z.leb_spec 400 status_code); destruct (Z.ltb_spec status_code 600);
    simpl.
  - split; [done|]. intros (s & [= <- _] & Hs). lia.
  - split.
    + destruct body; simpl; [|done]. intros [= <-]. exists status_code.
      split; [done|lia].
    + by intros (s & [= <- ->] & _).
  - split.
    + destruct body; simpl; [|done]. intros [= <-]. exists status_code.
      split; [done|lia].
    + by intros (s & [= <- ->] & _).
  - split.
    + destruct body; simpl; [|done]. intros [= <-]. exists status_code.
      split; [done|lia].
    + by intros (s & [= <- ->] & _).
Qed.

Lemma py_getitem_field (v : json) (k : string) (x : json) :
  Client.py_getitem v k = Ok x ↔
  ∃ fields, v = JObj fields ∧ Accessor.field k fields = Some x.
Proof.
  destruct v as [| | | | |fields]; simpl;
    try (split; [done|]; by intros (? & ? & _)).
  destruct (Accessor.field k fields) as [y|] eqn:Hy.
  - split; [intros [= <-]; eauto|]. intros (? & [= <-] & ?). congruence.
  - split; [done|]. intros (? & [= <-] & ?). congruence.
Qed.

(** X19. The fetch phase succeeds exactly when the console takes the lines
    it prints on the way, each of the six required endpoints answers without
    transport error, with a status that is no 4xx and no 5xx and with a body
    that decodes, the state is an object with a [week], and the accessor of
    the projections returns; it then holds what these endpoints answered,
    the matchups and the projections being those of the week of the
    state. *)
Theorem fetch_league_data_rule (c : Client.console) (net : Client.network)
    (data : Client.league_data) :
  Client.fetch_league_data c net = Ok data ↔
  let week := Client.current_week data in
  c Client.Fetching = true ∧
  c (Client.ApiRequest Client.LeagueInfo) = true ∧
  Client.answered (net Client.LeagueInfo) (Client.league_info data) ∧
  c (Client.ApiRequest Client.Users) = true ∧
  Client.answered (net Client.Users) (Client.users data) ∧
  c (Client.ApiRequest Client.Rosters) = true ∧
  Client.answered (net Client.Rosters) (Client.rosters data) ∧
  c (Client.ApiRequest Client.NflState) = true ∧
  Client.answered (net Client.NflState) (Client.nfl_state data) ∧
  (∃ fields, Client.nfl_state data = JObj fields ∧
             Accessor.field "week" fields = Some week) ∧
  c (Client.ApiRequest (Client.Matchups week)) = true ∧
  Client.answered (net (Client.Matchups week)) (Client.matchups data) ∧
  Client.answered (net Client.Players) (Client.players_data data) ∧
  c (Client.Searching week) = true ∧
  Client.get_weekly_projections c week (net (Client.Projections week))
  = Ok (Client.weekly_projections data).
Proof.
  unfold Client.fetch_league_data, Client.get_league_info, Client.get_users,
    Client.get_rosters, Client.get_nfl_state, Client.get_matchups,
    Client.get_players, Client.fetch, mbind, result_bind, Client.print.
  cbv zeta. split.
  - destruct (c Client.Fetching) eqn:P0; [|done].
    destruct (c (Client.ApiRequest Client.LeagueInfo)) eqn:P1; [|done].
    destruct (Client.get_json (net Client.LeagueInfo)) eqn:A1; [|done].
    destruct (c (Client.ApiRequest Client.Users)) eqn:P2; [|done].
    destruct (Client.get_json (net Client.Users)) eqn:A2; [|done].
    destruct (c (Client.ApiRequest Client.Rosters)) eqn:P3; [|done].
    destruct (Client.get_json (net Client.Rosters)) eqn:A3; [|done].
    destruct (c (Client.ApiRequest Client.NflState)) eqn:P4; [|done].
    destruct (Client.get_json (net Client.NflState)) as [state|] eqn:A4;
      [|done].
    destruct (Client.py_getitem state "week") as [week|] eqn:Hweek; [|done].
    destruct (c (Client.ApiRequest (Client.Matchups week))) eqn:P5; [|done].
    destruct (Client.get_json (net (Client.Matchups week))) eqn:A5; [|done].
    destruct (Client.get_json (net Client.Players)) eqn:A6; [|done].
    destruct (c (Client.Searching week)) eqn:P6; [|done].
    destruct (Client.get_weekly_projections c week _) eqn:Hp; [|done].
    intros [= <-]. simpl.
    apply get_json_answered in A1, A2, A3, A4, A5, A6.
    apply py_getitem_field in Hweek.
    repeat match goal with |- _ ∧ _ => split end; done.
  - destruct data; simpl.
    intros (P0 & P1 & A1 & P2 & A2 & P3 & A3 & P4 & A4 & Hweek & P5 & A5 & A6
            & P6 & Hp).
    apply get_json_answered in A1, A2, A3, A4, A5, A6.
    apply py_getitem_field in Hweek.
    by rewrite P0, P1, A1, P2, A2, P3, A3, P4, A4, Hweek, P5, A5, A6, P6, Hp.
Qed.

(** The network of the fixture, whose players endpoint answers 203, with the
    projections endpoint down, on a UTF-8 console. *)
Lemma fetch_league_data_rule_witness :
  Client.fetch_league_data Client.utf8 (Fixture.network Accessor.RequestFailed)
  = Ok (Client.LeagueData (JObj [("name", JStr "Chopped")]) (JArr []) (JArr [])
          (JObj [("week", JNum 3); ("season", JStr "2025")]) (JNum 3)
          (JArr []) (JObj []) []).
Proof.
  apply fetch_league_data_rule. cbv zeta. simpl Client.current_week.
  repeat split; try reflexivity;
    try (eexists; split; [reflexivity|]; first [reflexivity | lia]).
Defined.

(** The rosters endpoint answers 404 with a body that decodes: the fetch
    phase raises. *)
Example fetch_no_rosters_run :
  Client.fetch_league_data Client.utf8 Fixture.network_no_rosters
  = Raise RequestException.
Proof. vm_compute; reflexivity. Qed.

(** On the ASCII console the fetch phase raises at the accessor of the
    projections, all the required fetches having succeeded. *)
Example fetch_ascii_run :
  Client.fetch_league_data Client.ascii
    (Fixture.network (Accessor.Response 503 None))
  = Raise UnicodeEncodeError.
Proof. vm_compute; reflexivity. Qed.

(** X18. When the handler's own line can be printed, the answer of the
    projections endpoint never decides whether the fetch phase fails: on two
    networks that differ at the projections endpoint only, the phase raises
    the same exception on both or succeeds on both with the same league
    data, the projections apart. *)
Theorem projections_never_abort (c : Client.console)
    (net1 net2 : Client.network) :
  (∀ e, c (Client.Error e) = true) →
  (∀ e, (∀ week, e ≠ Client.Projections week) → net1 e = net2 e) →
  match Client.fetch_league_data c net1, Client.fetch_league_data c net2 with
  | Ok d1, Ok d2 =>
      Client.league_info d1 = Client.league_info d2 ∧
      Client.users d1 = Client.users d2 ∧
      Client.rosters d1 = Client.rosters d2 ∧
      Client.nfl_state d1 = Client.nfl_state d2 ∧
      Client.current_week d1 = Client.current_week d2 ∧
      Client.matchups d1 = Client.matchups d2 ∧
      Client.players_data d1 = Client.players_data d2
  | Raise e1, Raise e2 => e1 = e2
  | _, _ => False
  end.
Proof.
  intros Herr Hsame.
  unfold Client.fetch_league_data, Client.get_league_info, Client.get_users,
    Client.get_rosters, Client.get_nfl_state, Client.get_matchups,
    Client.get_players, Client.fetch, mbind, result_bind.
  rewrite <- (Hsame Client.LeagueInfo), <- (Hsame Client.Users),
    <- (Hsame Client.Rosters), <- (Hsame Client.NflState),
    <- (Hsame Client.Players) by done.
  destruct (Client.print c Client.Fetching); [|done].
  destruct (Client.print c (Client.ApiRequest Client.LeagueInfo)); [|done].
  destruct (Client.get_json (net1 Client.LeagueInfo)); [|done].
  destruct (Client.print c (Client.ApiRequest Client.Users)); [|done].
  destruct (Client.get_json (net1 Client.Users)); [|done].
  destruct (Client.print c (Client.ApiRequest Client.Rosters)); [|done].
  destruct (Client.get_json (net1 Client.Rosters)); [|done].
  destruct (Client.print c (Client.ApiRequest Client.NflState)); [|done].
  destruct (Client.get_json (net1 Client.NflState)) as [state|]; [|done].
  destruct (Client.py_getitem state "week") as [week|]; [|done].
  rewrite <- (Hsame (Client.Matchups week)) by done.
  destruct (Client.print c (Client.ApiRequest (Client.Matchups week))); [|done].
  destruct (Client.get_json (net1 (Client.Matchups week))); [|done].
  destruct (Client.get_json (net1 Client.Players)); [|done].
  destruct (Client.print c (Client.Searching week)); [|done].
  destruct (client_accessor_returns c week (net1 (Client.Projections week))
              Herr) as [->| ->];
    destruct (client_accessor_returns c week (net2 (Client.Projections week))
                Herr) as [->| ->]; done.
Qed.

(** The network of the fixture with the projections endpoint down and with
    the sample body, on a console that cannot print U+2713. *)
Lemma projections_never_abort_witness :
  match Client.fetch_league_data Fixture.no_check_mark
          (Fixture.network Accessor.RequestFailed),
        Client.fetch_league_data Fixture.no_check_mark
          (Fixture.network
             (Accessor.Response 200 (Some (JArr Scenario.body)))) with
  | Ok d1, Ok d2 =>
      Client.league_info d1 = Client.league_info d2 ∧
      Client.users d1 = Client.users d2 ∧
      Client.rosters d1 = Client.rosters d2 ∧
      Client.nfl_state d1 = Client.nfl_state d2 ∧
      Client.current_week d1 = Client.current_week d2 ∧
      Client.matchups d1 = Client.matchups d2 ∧
      Client.players_data d1 = Client.players_data d2
  | Raise e1, Raise e2 => e1 = e2
  | _, _ => False
  end.
Proof.
  apply projections_never_abort; [reflexivity|].
  intros e He. destruct e; try reflexivity. by destruct (He week).
Defined.

(** ** Which teams are exported *)

Section ExportedFacts.
Context {num : Type} `{Number num}.

(** X20. The team of a roster of the league is exported exactly when the
    weekly projections of its starters, added from the left as the program
    adds them, sum to more than zero or its current points is more than
    zero.  This holds whatever the numbers and their arithmetic are. *)
Theorem exported_iff users rosters (matchups : list (NumMatchup.t num))
    weekly_projections roster :
  roster ∈ rosters →
  let team := Join.team_summary (Ranker.user_lookup users) matchups
                weekly_projections roster in
  team ∈ Join.active_teams users rosters matchups weekly_projections ↔
  py_gt (Join.left_sum
           (Join.starter_projections weekly_projections
              (Ranker.starters roster))) py_zero = true ∨
  py_gt (NumTeam.current_points team) py_zero = true.
Proof.
  intros Hroster team. unfold Join.active_teams.
  rewrite join_sort_by_key_elem_of, list_elem_of_In, filter_In,
    <- list_elem_of_In.
  assert (team ∈ Join.teams_data users rosters matchups weekly_projections)
    as Hteam.
  { apply list_elem_of_lookup_1 in Hroster as [i Hi].
    apply list_elem_of_lookup. exists i. apply join_teams_data_lookup. eauto. }
  unfold Join.is_active. subst team. simpl in *.
  rewrite join_weekly_projected. unfold Join.projected_points.
  destruct (py_gt (Join.left_sum _) py_zero) eqn:Hsum.
  - split; [by left|]. by intros _.
  - split; [intros [_ ?]; by right|].
    intros [?|?]; [done|]. by split.
Qed.

End ExportedFacts.

(** The float league: roster 3 has no matchup and projections 1e16, 1 and
    -1e16, which sum to 0.0 from the left: its team is not exported.
    Roster 1 has the same projections and has scored 10: it is exported. *)
Lemma exported_iff_witness :
  (FloatLeague.unmatched_team
   ∉ Join.active_teams [] FloatLeague.rosters FloatLeague.matchups
       FloatLeague.weekly_projections) ∧
  (FloatLeague.big_team
   ∈ Join.active_teams [] FloatLeague.rosters FloatLeague.matchups
       FloatLeague.weekly_projections).
Proof.
  split.
  - intros Hin.
    assert (FloatLeague.unmatched ∈ FloatLeague.rosters) as Hmem
      by (right; right; by left).
    pose proof (proj1 (exported_iff [] FloatLeague.rosters FloatLeague.matchups
                         FloatLeague.weekly_projections FloatLeague.unmatched
                         Hmem)) as Hcases.
    destruct (Hcases Hin) as [Hsum|Hcur].
    + vm_compute in Hsum. discriminate.
    + vm_compute in Hcur. discriminate.
  - assert (FloatLeague.big ∈ FloatLeague.rosters) as Hmem by (by left).
    assert (py_gt (NumTeam.current_points
                     (Join.team_summary (Ranker.user_lookup [])
                        FloatLeague.matchups FloatLeague.weekly_projections
                        FloatLeague.big)) py_zero = true) as Hcur
      by (vm_compute; reflexivity).
    exact (proj2 (exported_iff [] FloatLeague.rosters FloatLeague.matchups
                    FloatLeague.weekly_projections FloatLeague.big Hmem)
                 (or_intror Hcur)).
Defined.
